(** * OAuthManager: token lifecycle of the OAuth2 / OpenID-Connect client

    The repository ships three generations of the manager class:
    - [src/index.js]   the browser class built by webpack        (module [IndexJs]),
    - its TypeScript port with [logout]/[login]                   (module [IndexTs]),
    - the rewritten [OAuthManager] with [saveTokens]/[clearTokens]
      and optional HMAC request signing                           (module [Manager]).

    Each method is embedded as a function in a small state-and-exception
    monad over the instance fields, the key/value storage, and the log of
    HTTP requests handed to [fetch].  The collaborators the classes do not
    implement (clock, transport, random source, hash functions, popup
    window) are the fields of an environment record. *)

From Stdlib Require Import ZArith NArith Ascii String DecimalString DecimalZ List Lia.
From stdpp Require Import gmap strings list fin_maps.

Local Open Scope Z_scope.

(* ===================================================================== *)
(** ** The JavaScript values the classes manipulate *)
(* ===================================================================== *)

Module JS.

(** Numbers are the integers plus NaN: every number the classes compute
    with is a millisecond timestamp or a lifetime in seconds.  A double
    holds every integer up to 2^53 in magnitude, and on such operands
    with such a result its sum and product are the exact ones; beyond
    that range doubles round, and fractions are not represented here.
    Statements about numbers the classes compute carry the range. *)
Inductive Number := NaN | Int (z : Z).

(** [Number.MAX_SAFE_INTEGER], 2^53 - 1, and [Number.isSafeInteger] on an
    integer. *)
Definition MAX_SAFE_INTEGER : Z := 9007199254740991.

Definition isSafeInteger (z : Z) : bool :=
  (- MAX_SAFE_INTEGER <=? z) && (z <=? MAX_SAFE_INTEGER).

Inductive Value :=
| Undefined
| Null
| Num (n : Number)
| Str (s : string).

Definition is_empty (s : string) : bool :=
  match s with EmptyString => true | String _ _ => false end.

(** ToBoolean: what [if (v)], [!v], [v || w] and [v ? a : b] test. *)
Definition truthy (v : Value) : bool :=
  match v with
  | Undefined | Null => false
  | Num NaN => false
  | Num (Int z) => negb (z =? 0)
  | Str s => negb (is_empty s)
  end.

(** Number::toString: NaN, and the decimal digits of an integer.  That
    is what [String(n)] prints for every integer below 10^21, the safe
    integers among them; from 10^21 on it prints an exponent form, which
    is not modelled. *)
Definition NumberToString (n : Number) : string :=
  match n with
  | NaN => "NaN"
  | Int z => NilZero.string_of_int (Z.to_int z)
  end.

(** ToString: string concatenation, [String(v)], and what
    [localStorage.setItem] stores. *)
Definition ToString (v : Value) : string :=
  match v with
  | Undefined => "undefined"
  | Null => "null"
  | Num n => NumberToString n
  | Str s => s
  end.

(** StringToNumber on the strings the classes store: the empty string
    is 0, a decimal integer literal with an optional minus sign is that
    integer, and "NaN" or any text that is no numeric literal is NaN.
    The other numeric literals of the language (a fraction, an exponent,
    a leading plus sign, surrounding white space, Infinity, a 0x, 0o or
    0b prefix) are outside this fragment: they are read as NaN here, and
    statements about stored numbers are made for the strings in
    [decimal_integer]. *)
Definition StringToNumber (s : string) : Number :=
  if is_empty s then Int 0
  else match NilZero.int_of_string s with
       | Some d => Int (Z.of_int d)
       | None => NaN
       end.

(** [s] is an integer the way [String(n)] prints it: digits without
    leading zeros, after a minus sign for a negative one. *)
Definition decimal_integer (s : string) : bool :=
  match StringToNumber s with
  | Int z => String.eqb s (NumberToString (Int z))
  | NaN => false
  end.

Definition ToNumber (v : Value) : Number :=
  match v with
  | Undefined => NaN
  | Null => Int 0
  | Num n => n
  | Str s => StringToNumber s
  end.

Definition number_add (a b : Number) : Number :=
  match a, b with
  | Int x, Int y => Int (x + y)
  | _, _ => NaN
  end.

Definition number_mul (a b : Number) : Number :=
  match a, b with
  | Int x, Int y => Int (x * y)
  | _, _ => NaN
  end.

(** A value held here as the program holds it: anything but a number
    outside the safe integers.  Such a value prints, under [String] and
    under [JSON.stringify], as it is printed here. *)
Definition exactly_held (v : Value) : bool :=
  match v with
  | Num (Int z) => isSafeInteger z
  | Undefined | Null | Num NaN | Str _ => true
  end.

(** [a + b]: concatenation as soon as one operand is a string. *)
Definition add (a b : Value) : Value :=
  match a, b with
  | Str _, _ | _, Str _ => Str (ToString a +:+ ToString b)
  | _, _ => Num (number_add (ToNumber a) (ToNumber b))
  end.

(** [a * b] *)
Definition mul (a b : Value) : Value :=
  Num (number_mul (ToNumber a) (ToNumber b)).

(** [a < b]: lexicographic on two strings, numeric otherwise; any
    comparison with NaN is false. *)
Definition lt (a b : Value) : bool :=
  match a, b with
  | Str s, Str t => String.ltb s t
  | _, _ =>
      match ToNumber a, ToNumber b with
      | Int x, Int y => x <? y
      | _, _ => false
      end
  end.

(** [a || b] *)
Definition or (a b : Value) : Value := if truthy a then a else b.

(** Exceptions the classes raise or meet. *)
Inductive Error :=
| Error_ (message : string)          (* new Error(message) *)
| TypeError (message : string)
| ReferenceError (identifier : string)
| FetchFailed                        (* the promise of fetch rejects *)
| JsonSyntaxError.                   (* the promise of response.json() rejects *)

(** Completion of a call: a returned value or a thrown exception.  For an
    [async] method, [Thrown] is the rejection of the promise it returns. *)
Inductive Completion (A : Type) :=
| Returned (a : A)
| Thrown (e : Error).

Arguments Returned {A} a.
Arguments Thrown {A} e.

(** *** JSON.stringify on flat objects *)

Definition dquote : ascii := "034"%char.
Definition backslash : ascii := "092"%char.

Definition hex_lower (n : N) : ascii :=
  match String.get (N.to_nat n) "0123456789abcdef" with
  | Some c => c
  | None => "0"%char
  end.

Definition json_escape_char (c : ascii) : string :=
  let n := N_of_ascii c in
  if Ascii.eqb c dquote then String backslash (String dquote EmptyString)
  else if Ascii.eqb c backslash then String backslash (String backslash EmptyString)
  else if (n =? 8)%N then String backslash "b"
  else if (n =? 9)%N then String backslash "t"
  else if (n =? 10)%N then String backslash "n"
  else if (n =? 12)%N then String backslash "f"
  else if (n =? 13)%N then String backslash "r"
  else if (n <? 32)%N then
    String backslash
      (String "u" (String "0" (String "0"
        (String (hex_lower (n / 16)) (String (hex_lower (n mod 16)) EmptyString)))))
  else String c EmptyString.

Fixpoint json_escape (s : string) : string :=
  match s with
  | EmptyString => EmptyString
  | String c r => json_escape_char c +:+ json_escape r
  end.

Definition json_quote (s : string) : string :=
  String dquote (json_escape s +:+ String dquote EmptyString).

(** A property whose value is [undefined] is left out; NaN prints as null. *)
Definition json_member (kv : string * Value) : option string :=
  let '(k, v) := kv in
  match v with
  | Undefined => None
  | Null => Some (json_quote k +:+ ":null")
  | Num NaN => Some (json_quote k +:+ ":null")
  | Num (Int z) => Some (json_quote k +:+ ":" +:+ NumberToString (Int z))
  | Str s => Some (json_quote k +:+ ":" +:+ json_quote s)
  end.

Fixpoint join (sep : string) (l : list string) : string :=
  match l with
  | [] => EmptyString
  | [x] => x
  | x :: r => x +:+ sep +:+ join sep r
  end.

Definition JSON_stringify (o : list (string * Value)) : string :=
  "{" +:+ join "," (omap json_member o) +:+ "}".

End JS.

(* ===================================================================== *)
(** ** The web platform pieces the classes call *)
(* ===================================================================== *)

Module Web.
Import JS.

Inductive Method := GET | POST.

(** A call [fetch(url, {method, headers, body})]. *)
Record Request := {
  url : string;
  method : Method;
  headers : list (string * string);
  body : option string
}.

(** How the transport settles a request: the promise of [fetch] rejects,
    or it resolves to a response with a status and a body that
    [response.json()] parses to an object ([Some]) or rejects ([None]). *)
Inductive FetchOutcome :=
| NetworkError
| Response (status : Z) (json : option (gmap string Value)).

(** [data.k] on a parsed object. *)
Definition prop (data : gmap string Value) (k : string) : Value :=
  default Undefined (data !! k).

Fixpoint header (name : string) (hs : list (string * string)) : option string :=
  match hs with
  | [] => None
  | (k, v) :: r => if String.eqb k name then Some v else header name r
  end.

(** *** Percent-encoding *)

Definition is_alnum (c : ascii) : bool :=
  let n := N_of_ascii c in
  ((48 <=? n) && (n <=? 57) || (65 <=? n) && (n <=? 90) || (97 <=? n) && (n <=? 122))%N.

Definition one_of (set : string) (c : ascii) : bool :=
  existsb (Ascii.eqb c) (list_ascii_of_string set).

Definition hex_upper (n : N) : ascii :=
  match String.get (N.to_nat n) "0123456789ABCDEF" with
  | Some c => c
  | None => "0"%char
  end.

Definition percent_encode (c : ascii) : string :=
  let n := N_of_ascii c in
  String "%" (String (hex_upper (n / 16)) (String (hex_upper (n mod 16)) EmptyString)).

(** [encodeURIComponent], on the bytes of the string. *)
Definition encodeURIComponent_char (c : ascii) : string :=
  if is_alnum c || one_of "-_.!~*'()" c then String c EmptyString
  else percent_encode c.

Fixpoint encodeURIComponent (s : string) : string :=
  match s with
  | EmptyString => EmptyString
  | String c r => encodeURIComponent_char c +:+ encodeURIComponent r
  end.

(** The application/x-www-form-urlencoded serializer of [URLSearchParams]. *)
Definition form_urlencode_char (c : ascii) : string :=
  if Ascii.eqb c " " then "+"
  else if is_alnum c || one_of "*-._" c then String c EmptyString
  else percent_encode c.

Fixpoint form_urlencode (s : string) : string :=
  match s with
  | EmptyString => EmptyString
  | String c r => form_urlencode_char c +:+ form_urlencode r
  end.

Definition URLSearchParams_toString (params : list (string * string)) : string :=
  join "&" (map (fun kv => form_urlencode (fst kv) +:+ "=" +:+ form_urlencode (snd kv)) params).

(** [s.split(sep)] *)
Fixpoint split (sep : ascii) (s : string) : list string :=
  match s with
  | EmptyString => [EmptyString]
  | String c r =>
      if Ascii.eqb c sep then EmptyString :: split sep r
      else match split sep r with
           | x :: xs => String c x :: xs
           | [] => [String c EmptyString]
           end
  end.












(** [new URL(s)] with the list behind [url.searchParams], and [url.href],
    for the strings [s] in [normal_http_url].  On other strings the
    constructor may throw a TypeError (a relative or malformed URL),
    rewrite [s] into its normal form, or start from the parameters of an
    existing query; none of that is modelled, and statements about the
    text of the URL are made for [normal_http_url] only. *)
Record URL := {
  base : string;
  searchParams : list (string * string)
}.

Definition URL_new (s : string) : URL := {| base := s; searchParams := [] |}.

Definition searchParams_append (k v : string) (u : URL) : URL :=
  {| base := base u; searchParams := searchParams u ++ [(k, v)] |}.

Definition href (u : URL) : string :=
  match searchParams u with
  | [] => base u
  | _ :: _ => base u +:+ "?" +:+ URLSearchParams_toString (searchParams u)
  end.

(** [s.charAt(i)] *)
Definition charAt (s : string) (i : nat) : string :=
  match String.get i s with
  | Some c => String c EmptyString
  | None => EmptyString
  end.

(** *** The key/value store behind [storage.get/set/remove]

    [localStorage]: string keys, string values; [setItem] stores
    [ToString] of what it is given and [getItem] returns null for a
    missing key. *)
Definition Storage_get (k : string) (s : gmap string string) : Value :=
  match s !! k with
  | Some v => Str v
  | None => Null
  end.

Definition Storage_set (k : string) (v : Value) (s : gmap string string) : gmap string string :=
  <[k := ToString v]> s.

Definition Storage_remove (k : string) (s : gmap string string) : gmap string string :=
  delete k s.

(** *** Sources of randomness *)
Inductive RandomSource := MathRandom | CryptoGetRandomValues.

(** [Math.random] is a fast non-cryptographic generator; the Web Crypto
    source is the cryptographically secure one. *)
Definition cryptographically_secure (src : RandomSource) : bool :=
  match src with
  | MathRandom => false
  | CryptoGetRandomValues => true
  end.

(** What a caller-supplied [openWindow(url)] hands back: the value bound
    to [code], and whether that value has a callable [close]. *)
Record Opened := {
  code_of : Value;
  has_close : bool
}.

Inductive Opener :=
| OpenerUndefined
| OpenerNull
| OpenerFunction (f : string -> Completion Opened)
| OpenerOther.

(** The collaborators. *)
Record Env := {
  now : Z;                                   (* Date.now(), new Date().getTime() *)
  net : Request -> FetchOutcome;             (* the transport *)
  random53 : nat -> N;                       (* n-th Math.random(), numerator over 2^53 *)
  SHA256_base64url : string -> string;       (* CryptoJS.SHA256(s).toString(Base64url) *)
  createHmac_sha256_hex : string -> string -> string;
                                             (* createHmac('sha256', key).update(d).digest('hex') *)
  popup_blocked : bool                       (* window.open(...) returns null *)
}.

End Web.

(* ===================================================================== *)
(** ** State and exceptions *)
(* ===================================================================== *)

Module Eff.
Import JS.

Definition M (S A : Type) : Type := S -> Completion A * S.

#[global] Instance M_ret {S} : MRet (M S) :=
  fun A (a : A) s => (Returned a, s).

#[global] Instance M_bind {S} : MBind (M S) :=
  fun A B (k : A -> M S B) (m : M S A) s =>
    match m s with
    | (Returned a, s') => k a s'
    | (Thrown e, s') => (Thrown e, s')
    end.

Definition throw {S A} (e : Error) : M S A := fun s => (Thrown e, s).

(** [try { m } catch (e) { h e }] *)
Definition try_catch {S A} (m : M S A) (h : Error -> M S A) : M S A :=
  fun s =>
    match m s with
    | (Returned a, s') => (Returned a, s')
    | (Thrown e, s') => h e s'
    end.

Definition gets {S A} (f : S -> A) : M S A := fun s => (Returned (f s), s).

Definition modify {S} (f : S -> S) : M S unit := fun s => (Returned tt, f s).

(** [if (c) { m }] *)
Definition when {S} (c : bool) (m : M S unit) : M S unit :=
  if c then m else mret tt.

End Eff.


(* ===================================================================== *)
(** ** The browser classes: instance fields and the world around them *)
(* ===================================================================== *)

Module Browser.
Import JS Web Eff.

(** The fields [init] sets once. *)
Record Config := {
  clientID : string;
  redirectURI : string;
  scope : Value;
  responseType : string;
  authorizeURL : string;
  tokenURL : string;
  revokeURL : string;
  refreshURL : string;
  infoURL : string;
  withPKCE : bool;
  openWindow : Opener;
  clientHeader : list (string * string)
}.

(** The [.then] callbacks a pending [fetch] chain continues with. *)
Inductive Continuation := AfterToken | AfterRefresh | AfterRevoke | AfterUserInfo.

Record State := {
  config : Config;
  accessToken : Value;
  refreshToken : Value;
  codeVerifier : Value;
  storage : gmap string string;
  sent : list Request;                       (* requests handed to fetch, oldest first *)
  inflight : list (Request * Continuation);  (* promise chains not yet settled *)
  console_errors : list Error;               (* console.error in catch handlers *)
  draws : list RandomSource;                 (* one entry per random number drawn *)
  popups : list string;                      (* URLs given to window.open *)
  intervals : list Z;                        (* periods given to setInterval *)
  alerts : list string
}.

Definition with_accessToken (x : Value) (st : State) : State :=
  {| config := config st; accessToken := x; refreshToken := refreshToken st;
     codeVerifier := codeVerifier st; storage := storage st; sent := sent st;
     inflight := inflight st; console_errors := console_errors st; draws := draws st;
     popups := popups st; intervals := intervals st; alerts := alerts st |}.

Definition with_refreshToken (x : Value) (st : State) : State :=
  {| config := config st; accessToken := accessToken st; refreshToken := x;
     codeVerifier := codeVerifier st; storage := storage st; sent := sent st;
     inflight := inflight st; console_errors := console_errors st; draws := draws st;
     popups := popups st; intervals := intervals st; alerts := alerts st |}.

Definition with_codeVerifier (x : Value) (st : State) : State :=
  {| config := config st; accessToken := accessToken st; refreshToken := refreshToken st;
     codeVerifier := x; storage := storage st; sent := sent st;
     inflight := inflight st; console_errors := console_errors st; draws := draws st;
     popups := popups st; intervals := intervals st; alerts := alerts st |}.

Definition with_storage (x : gmap string string) (st : State) : State :=
  {| config := config st; accessToken := accessToken st; refreshToken := refreshToken st;
     codeVerifier := codeVerifier st; storage := x; sent := sent st;
     inflight := inflight st; console_errors := console_errors st; draws := draws st;
     popups := popups st; intervals := intervals st; alerts := alerts st |}.

Definition with_sent (x : list Request) (st : State) : State :=
  {| config := config st; accessToken := accessToken st; refreshToken := refreshToken st;
     codeVerifier := codeVerifier st; storage := storage st; sent := x;
     inflight := inflight st; console_errors := console_errors st; draws := draws st;
     popups := popups st; intervals := intervals st; alerts := alerts st |}.

Definition with_inflight (x : list (Request * Continuation)) (st : State) : State :=
  {| config := config st; accessToken := accessToken st; refreshToken := refreshToken st;
     codeVerifier := codeVerifier st; storage := storage st; sent := sent st;
     inflight := x; console_errors := console_errors st; draws := draws st;
     popups := popups st; intervals := intervals st; alerts := alerts st |}.

Definition with_console_errors (x : list Error) (st : State) : State :=
  {| config := config st; accessToken := accessToken st; refreshToken := refreshToken st;
     codeVerifier := codeVerifier st; storage := storage st; sent := sent st;
     inflight := inflight st; console_errors := x; draws := draws st;
     popups := popups st; intervals := intervals st; alerts := alerts st |}.

Definition with_draws (x : list RandomSource) (st : State) : State :=
  {| config := config st; accessToken := accessToken st; refreshToken := refreshToken st;
     codeVerifier := codeVerifier st; storage := storage st; sent := sent st;
     inflight := inflight st; console_errors := console_errors st; draws := x;
     popups := popups st; intervals := intervals st; alerts := alerts st |}.

Definition with_popups (x : list string) (st : State) : State :=
  {| config := config st; accessToken := accessToken st; refreshToken := refreshToken st;
     codeVerifier := codeVerifier st; storage := storage st; sent := sent st;
     inflight := inflight st; console_errors := console_errors st; draws := draws st;
     popups := x; intervals := intervals st; alerts := alerts st |}.

Definition with_intervals (x : list Z) (st : State) : State :=
  {| config := config st; accessToken := accessToken st; refreshToken := refreshToken st;
     codeVerifier := codeVerifier st; storage := storage st; sent := sent st;
     inflight := inflight st; console_errors := console_errors st; draws := draws st;
     popups := popups st; intervals := x; alerts := alerts st |}.

Definition with_alerts (x : list string) (st : State) : State :=
  {| config := config st; accessToken := accessToken st; refreshToken := refreshToken st;
     codeVerifier := codeVerifier st; storage := storage st; sent := sent st;
     inflight := inflight st; console_errors := console_errors st; draws := draws st;
     popups := popups st; intervals := intervals st; alerts := x |}.

(** [this.storage.get(k)], [this.storage.set(k, v)], [this.storage.remove(k)] *)
Definition storage_get (k : string) : M State Value :=
  gets (fun st => Storage_get k (storage st)).

Definition storage_set (k : string) (v : Value) : M State unit :=
  modify (fun st => with_storage (Storage_set k v (storage st)) st).

Definition storage_remove (k : string) : M State unit :=
  modify (fun st => with_storage (Storage_remove k (storage st)) st).

(** [fetch(req).then(r => r.json()).then(k).catch(e => console.error(e))]:
    the request leaves now, the chain runs when the transport settles. *)
Definition fetch_then (req : Request) (k : Continuation) : M State unit :=
  modify (fun st => with_inflight (inflight st ++ [(req, k)]) (with_sent (sent st ++ [req]) st)).

(** [await fetch(req)] *)
Definition await_fetch (env : Env) (req : Request) : M State (Z * option (gmap string Value)) :=
  modify (fun st => with_sent (sent st ++ [req]) st);;
  match net env req with
  | NetworkError => throw FetchFailed
  | Response status json => mret (status, json)
  end.

(** [await response.json()] *)
Definition await_json (response : Z * option (gmap string Value)) : M State (gmap string Value) :=
  match snd response with
  | Some data => mret data
  | None => throw JsonSyntaxError
  end.

Definition console_error (e : Error) : M State unit :=
  modify (fun st => with_console_errors (console_errors st ++ [e]) st).

(** [Math.random()], as a numerator over 2^53. *)
Definition Math_random (env : Env) : M State N :=
  st ← gets (fun st => st);
  modify (with_draws (draws st ++ [MathRandom]));;
  mret (random53 env (length (draws st)) mod 2 ^ 53)%N.

(** [Math.floor(r * n)] for [r] = [k / 2^53], the product taken exactly
    (its rounding to a double can move a draw to the next index, never
    out of [0, n)). *)
Definition floor_times (k : N) (n : nat) : nat :=
  N.to_nat (k * N.of_nat n / 2 ^ 53).

(** The whole chain of one settled request. *)
Definition settle (resume : Continuation -> gmap string Value -> M State unit)
    (outcome : FetchOutcome) (k : Continuation) : M State unit :=
  try_catch
    (match outcome with
     | NetworkError => throw FetchFailed
     | Response _ None => throw JsonSyntaxError
     | Response _ (Some data) => resume k data
     end)
    console_error.

Fixpoint settle_all (env : Env) (resume : Continuation -> gmap string Value -> M State unit)
    (tasks : list (Request * Continuation)) : M State unit :=
  match tasks with
  | [] => mret tt
  | (req, k) :: rest => settle resume (net env req) k;; settle_all env resume rest
  end.

(** Let the transport settle every pending chain, oldest first. *)
Definition run_inflight (env : Env) (resume : Continuation -> gmap string Value -> M State unit)
    : M State unit :=
  tasks ← gets inflight;
  modify (with_inflight []);;
  settle_all env resume tasks.

(** The state a method leaves behind, and what it completed with. *)
Definition after {A} (m : M State A) (st : State) : State := snd (m st).
Definition completion {A} (m : M State A) (st : State) : Completion A := fst (m st).

(** What the timer callback [checkPopupUrl] finds when it looks at the
    popup.  The window was closed, and then [authWindow.window] is either
    null (browsers that detach the window object of a closed popup) or
    still the window; it is on another origin, where [window] and
    [location] can be read and reading [location.href] throws; or it is
    readable, at [href], and
    [new URLSearchParams(location.search).get("code")] is [code]. *)
Inductive Popup :=
| PopupDetached
| PopupClosed
| PopupElsewhere
| PopupAt (href : string) (code : Value).

(** The first statement of the callback,
    [console.log("Checking popup URL", authWindow.window.location)]:
    the property read throws when [authWindow.window] is null.  What
    [console.log] prints is not kept. *)
Definition read_window_location (popup : Popup) : M State unit :=
  match popup with
  | PopupDetached =>
      throw (TypeError "Cannot read properties of null (reading 'location')")
  | PopupClosed | PopupElsewhere | PopupAt _ _ => mret tt
  end.

Fixpoint remove_first (period : Z) (timers : list Z) : list Z :=
  match timers with
  | [] => []
  | t :: rest => if t =? period then rest else t :: remove_first period rest
  end.

(** [clearInterval(checkInterval)], [checkInterval] being one of the
    timers registered with [period]. *)
Definition clearInterval (period : Z) : M State unit :=
  modify (fun st => with_intervals (remove_first period (intervals st)) st).

End Browser.

(* ===================================================================== *)
(** ** src/index.js *)
(* ===================================================================== *)

Module IndexJs.
Import JS Web Eff Browser.

Section Methods.
Variable env : Env.

(** [init]: the options after defaulting, and the storage handed in. *)
Definition init (options : Config) (store : gmap string string) : Completion State :=
  if is_empty (clientID options) || is_empty (redirectURI options) then
    Thrown (Error_ "clientID and redirectURI are required")
  else
    let token := Storage_get "access_token" store in
    Returned {|
      config := {|
        clientID := clientID options;
        redirectURI := redirectURI options;
        scope := scope options;
        responseType :=
          if String.eqb (responseType options) "authorization_code" then "code"
          else responseType options;
        authorizeURL := authorizeURL options;
        tokenURL := tokenURL options;
        revokeURL := revokeURL options;
        refreshURL := refreshURL options;
        infoURL := infoURL options;
        withPKCE := withPKCE options;
        openWindow := openWindow options;
        clientHeader :=
          [("Content-Type", "application/x-www-form-urlencoded");
           ("Authorization", ToString (add (Str "Bearer ") token))]
      |};
      accessToken := token;
      refreshToken := Storage_get "refresh_token" store;
      codeVerifier := Undefined;
      storage := store;
      sent := []; inflight := []; console_errors := []; draws := [];
      popups := []; intervals := []; alerts := []
    |}.

(** *** PKCE functions *)

Definition charset : string :=
  "ABCDEFGHIJKLMNOPQRSTUVWXYZabcdefghijklmnopqrstuvwxyz0123456789-._~".

(** The [for] loop of [generateRandomString], [iterations] rounds from
    the accumulator [random]. *)
Fixpoint generateRandomString_loop (iterations : nat) (random : string) : M State string :=
  match iterations with
  | O => mret random
  | S n =>
      r ← Math_random env;
      generateRandomString_loop n
        (random +:+ charAt charset (floor_times r (String.length charset)))
  end.

Definition generateRandomString (length : nat) : M State string :=
  generateRandomString_loop length EmptyString.

(** [CryptoJS.SHA256] is total on strings, so the [catch] of [sha256]
    is never entered. *)
Definition sha256 (plain : string) : string := SHA256_base64url env plain.

(** *** Code exchange *)

Definition form_body (data : list (string * Value)) : string :=
  join "&"
    (map (fun kv => encodeURIComponent (fst kv) +:+ "=" +:+
                    encodeURIComponent (ToString (snd kv))) data).

Definition getAccessToken (code : Value) : M State unit :=
  st ← gets (fun st => st);
  let headers :=
    [("Accept", "*/*"); ("Content-Type", "application/x-www-form-urlencoded")] in
  let data :=
    [("client_id", Str (clientID (config st)));
     ("redirect_uri", Str (redirectURI (config st)));
     ("grant_type", Str "authorization_code");
     ("code", code);
     ("code_verifier", codeVerifier st)] in
  fetch_then {| url := tokenURL (config st); method := POST;
                headers := headers; body := Some (form_body data) |} AfterToken.

(** [.then((data) => { ... })] of [getAccessToken] *)
Definition onToken (data : gmap string Value) : M State unit :=
  modify (with_accessToken (prop data "access_token"));;
  modify (with_refreshToken (prop data "refresh_token"));;
  storage_set "expires_in" (prop data "expires_in");;
  storage_set "expiry" (add (prop data "expires_in") (Num (Int (now env))));;
  a ← gets accessToken;
  storage_set "access_token" a;;
  r ← gets Browser.refreshToken;
  storage_set "refresh_token" r.

(** *** Authorization *)

(** The first part of [authorize]: the URL, and with PKCE the fresh
    verifier kept in the instance and under [code_verifier]. *)
Definition authorize_url : M State URL :=
  cfg ← gets config;
  let url := URL_new (authorizeURL cfg) in
  let url := searchParams_append "client_id" (clientID cfg) url in
  let url := searchParams_append "redirect_uri" (redirectURI cfg) url in
  let url := searchParams_append "response_type" (responseType cfg) url in
  let url :=
    if truthy (scope cfg) then searchParams_append "scope" (ToString (scope cfg)) url
    else url in
  if withPKCE cfg then
    verifier ← generateRandomString 64;
    modify (with_codeVerifier (Str verifier));;
    let codeChallenge := sha256 verifier in
    storage_set "code_verifier" (Str verifier);;
    mret (searchParams_append "code_challenge_method" "S256"
            (searchParams_append "code_challenge" codeChallenge url))
  else mret url.

(** The second part: hand the URL to a popup or to [openWindow].  The
    timer callback that later polls the popup is [checkPopupUrl] below;
    here it is registered. *)
Definition authorize : M State unit :=
  url ← authorize_url;
  cfg ← gets config;
  match openWindow cfg with
  | OpenerUndefined | OpenerNull =>
      modify (fun st => with_popups (popups st ++ [href url]) st);;
      if popup_blocked env then
        modify (fun st => with_alerts (alerts st ++
          ["Unable to open authentication window. Please check your popup settings."]) st)
      else
        modify (fun st => with_intervals (intervals st ++ [500]) st)
  | OpenerFunction f =>
      try_catch
        (opened ← (fun st => (f (href url), st));
         if truthy (code_of opened) then
           getAccessToken (code_of opened);;
           (if has_close opened then mret tt
            else throw (TypeError "code.close is not a function"))
         else mret tt)
        (* [code] is scoped to the try block: the handler's [code.close()]
           names an unbound identifier *)
        (fun e => console_error e;; throw (ReferenceError "code"))
  | OpenerOther => throw (Error_ "openWindow is not a function")
  end.

(** *** Refresh, revoke, validity, user info *)

(** The function the class declares as [refreshToken() { ... }], run on
    the instance.  [init] assigns a field of the same name, so on an
    instance the function is reached only through the prototype,
    [OAuthManager.prototype.refreshToken.call(o)]. *)
Definition prototype_refreshToken : M State unit :=
  a ← gets accessToken;
  when (negb (truthy a)) authorize;;
  st ← gets (fun st => st);
  let data :=
    [("client_id", Str (clientID (config st)));
     ("grant_type", Str "refresh_token");
     ("refresh_token", Browser.refreshToken st)] in
  fetch_then {| url := refreshURL (config st); method := POST;
                headers := clientHeader (config st);
                body := Some (JSON_stringify data) |} AfterRefresh.

(** The call [o.refreshToken()] on an instance.  [this.refreshToken] is
    an own property from [init] on (the stored string or null, later what
    a token answer held, null after a revocation) and hides the method:
    the callee is no function, and the call throws a TypeError before a
    statement of the method runs. *)
Definition refreshToken : M State unit :=
  throw (TypeError "refreshToken is not a function").

Definition onRefresh (data : gmap string Value) : M State unit :=
  modify (with_accessToken (prop data "access_token"));;
  a ← gets accessToken;
  storage_set "access_token" a.

Definition revokeToken : M State unit :=
  a ← gets accessToken;
  if negb (truthy a) then throw (Error_ "No access token found")
  else
    st ← gets (fun st => st);
    let data := [("client_id", Str (clientID (config st))); ("token", a)] in
    fetch_then {| url := revokeURL (config st); method := POST;
                  headers := clientHeader (config st);
                  body := Some (JSON_stringify data) |} AfterRevoke.

Definition onRevoke (data : gmap string Value) : M State unit :=
  modify (with_accessToken Null);;
  modify (with_refreshToken Null);;
  storage_remove "access_token";;
  storage_remove "refresh_token".

(** [return now < expiresAt]: no declaration of [expiresAt] is in scope
    (the constant read above it is [expiresIn]), so evaluating the
    comparison raises a ReferenceError. *)
Definition isTokenValid : M State bool :=
  expiresIn ← storage_get "expires_in";
  if negb (truthy expiresIn) then mret false
  else throw (ReferenceError "expiresAt").

Definition getUserInfo : M State unit :=
  a ← gets accessToken;
  if negb (truthy a) then throw (Error_ "No access token found")
  else
    st ← gets (fun st => st);
    token ← storage_get "access_token";
    fetch_then {| url := infoURL (config st); method := GET;
                  headers := [("Content-Type", "application/json");
                              ("Authorization", ToString (add (Str "Bearer ") token))];
                  body := None |} AfterUserInfo.

Definition resume (k : Continuation) (data : gmap string Value) : M State unit :=
  match k with
  | AfterToken => onToken data
  | AfterRefresh => onRefresh data
  | AfterRevoke => onRevoke data
  | AfterUserInfo => mret tt
  end.


(** The timer callback of [authorize], one tick.  Its first statement
    stands before the [try] block, so what it throws leaves the callback.
    The exception of a cross-origin read is a DOMException named
    SecurityError; closing the popup window leaves no trace in the
    instance. *)
Definition checkPopupUrl (popup : Popup) : M State unit :=
  read_window_location popup;;
  try_catch
    (match popup with
     | PopupDetached | PopupClosed => clearInterval 500
     | PopupElsewhere => throw (Error_ "SecurityError")
     | PopupAt popupUrl code =>
         cfg ← gets config;
         if String.prefix (redirectURI cfg) popupUrl then
           clearInterval 500;;
           when (truthy code) (getAccessToken code)
         else mret tt
     end)
    console_error.

End Methods.
End IndexJs.

(* ===================================================================== *)
(** ** The TypeScript port of the browser class *)
(* ===================================================================== *)

Module IndexTs.
Import JS Web Eff Browser.

(** What [init] may be given as [scope]. *)
Inductive ScopeOption :=
| ScopeValue (v : Value)
| ScopeArray (items : list string).

(** What the promise of [getUserInfo] resolves to: the parsed body, or
    the object [{ error }] built by its [catch]. *)
Inductive UserInfo :=
| Claims (data : gmap string Value)
| ErrorObject (error : Error).

Section Methods.
Variable env : Env.

(** [init]; [window] exists in a browser, so its second check passes. *)
Definition init (options : Config) (scopeOption : ScopeOption)
    (store : gmap string string) : Completion State :=
  if is_empty (clientID options) || is_empty (redirectURI options) then
    Thrown (Error_ "clientID and redirectURI are required")
  else
    let token := Storage_get "access_token" store in
    Returned {|
      config := {|
        clientID := clientID options;
        redirectURI := redirectURI options;
        scope :=
          match scopeOption with
          | ScopeArray items => Str (join " " items)
          | ScopeValue v => v
          end;
        responseType :=
          if String.eqb (responseType options) "authorization_code" then "code"
          else responseType options;
        authorizeURL := authorizeURL options;
        tokenURL := tokenURL options;
        revokeURL := revokeURL options;
        refreshURL := refreshURL options;
        infoURL := infoURL options;
        withPKCE := withPKCE options;
        openWindow := openWindow options;
        clientHeader :=
          [("Content-Type", "application/x-www-form-urlencoded");
           ("Authorization", ToString (add (Str "Bearer ") token))]
      |};
      accessToken := token;
      refreshToken := Storage_get "refresh_token" store;
      codeVerifier := Undefined;
      storage := store;
      sent := []; inflight := []; console_errors := []; draws := [];
      popups := []; intervals := []; alerts := []
    |}.

Definition charset : string :=
  "ABCDEFGHIJKLMNOPQRSTUVWXYZabcdefghijklmnopqrstuvwxyz0123456789-._~".

Fixpoint generateRandomString_loop (iterations : nat) (random : string) : M State string :=
  match iterations with
  | O => mret random
  | S n =>
      r ← Math_random env;
      generateRandomString_loop n
        (random +:+ charAt charset (floor_times r (String.length charset)))
  end.

Definition generateRandomString (length : nat) : M State string :=
  generateRandomString_loop length EmptyString.

Definition sha256 (plain : string) : string := SHA256_base64url env plain.

Definition form_body (data : list (string * Value)) : string :=
  join "&"
    (map (fun kv => encodeURIComponent (fst kv) +:+ "=" +:+
                    encodeURIComponent (ToString (snd kv))) data).

Definition getAccessTokenFromCode (code : Value) : M State unit :=
  st ← gets (fun st => st);
  let headers :=
    [("Accept", "*/*"); ("Content-Type", "application/x-www-form-urlencoded")] in
  let data :=
    [("client_id", Str (clientID (config st)));
     ("redirect_uri", Str (redirectURI (config st)));
     ("grant_type",
      Str (if String.eqb (responseType (config st)) "code" then "authorization_code"
           else "token"));
     ("code", code)] in
  let data :=
    if withPKCE (config st) then data ++ [("code_verifier", codeVerifier st)] else data in
  fetch_then {| url := tokenURL (config st); method := POST;
                headers := headers; body := Some (form_body data) |} AfterToken.

Definition onToken (data : gmap string Value) : M State unit :=
  modify (with_accessToken (prop data "access_token"));;
  modify (with_refreshToken (prop data "refresh_token"));;
  storage_set "expires_in" (prop data "expires_in");;
  storage_set "expires_at" (add (prop data "expires_in") (Num (Int (now env))));;
  a ← gets accessToken;
  storage_set "access_token" a;;
  r ← gets refreshToken;
  storage_set "refresh_token" r.

Definition authorize_url : M State URL :=
  cfg ← gets config;
  let url := URL_new (authorizeURL cfg) in
  let url := searchParams_append "client_id" (clientID cfg) url in
  let url := searchParams_append "redirect_uri" (redirectURI cfg) url in
  let url := searchParams_append "response_type" (responseType cfg) url in
  let url :=
    if truthy (scope cfg) then searchParams_append "scope" (ToString (scope cfg)) url
    else url in
  if withPKCE cfg then
    verifier ← generateRandomString 64;
    modify (with_codeVerifier (Str verifier));;
    let codeChallenge := sha256 verifier in
    storage_set "code_verifier" (Str verifier);;
    mret (searchParams_append "code_challenge_method" "S256"
            (searchParams_append "code_challenge" codeChallenge url))
  else mret url.

Definition authorize : M State unit :=
  url ← authorize_url;
  cfg ← gets config;
  match openWindow cfg with
  | OpenerUndefined | OpenerNull =>
      modify (fun st => with_popups (popups st ++ [href url]) st);;
      if popup_blocked env then
        modify (fun st => with_alerts (alerts st ++
          ["Unable to open authentication window. Please check your popup settings."]) st)
      else
        modify (fun st => with_intervals (intervals st ++ [500]) st)
  | OpenerFunction f =>
      try_catch
        (opened ← (fun st => (f (href url), st));
         when (truthy (code_of opened)) (getAccessTokenFromCode (code_of opened)))
        console_error
  | OpenerOther => throw (Error_ "openWindow is not a function")
  end.

Definition tokenRefresh : M State unit :=
  a ← gets accessToken;
  when (negb (truthy a)) authorize;;
  st ← gets (fun st => st);
  let data :=
    [("client_id", Str (clientID (config st)));
     ("grant_type", Str "refresh_token");
     ("refresh_token", refreshToken st)] in
  fetch_then {| url := refreshURL (config st); method := POST;
                headers := clientHeader (config st);
                body := Some (JSON_stringify data) |} AfterRefresh.

Definition onRefresh (data : gmap string Value) : M State unit :=
  modify (with_accessToken (prop data "access_token"));;
  a ← gets accessToken;
  storage_set "access_token" a.

Definition revokeToken : M State unit :=
  a ← gets accessToken;
  if negb (truthy a) then throw (Error_ "No access token found")
  else
    st ← gets (fun st => st);
    let data := [("client_id", Str (clientID (config st))); ("token", a)] in
    fetch_then {| url := revokeURL (config st); method := POST;
                  headers := clientHeader (config st);
                  body := Some (JSON_stringify data) |} AfterRevoke.

Definition onRevoke (data : gmap string Value) : M State unit :=
  modify (with_accessToken Null);;
  modify (with_refreshToken Null);;
  storage_remove "access_token";;
  storage_remove "refresh_token".

Definition logout : M State unit :=
  revokeToken;;
  storage_remove "access_token";;
  storage_remove "refresh_token";;
  storage_remove "expires_in";;
  storage_remove "expires_at".

Definition isTokenValid : M State bool :=
  expiresAt ← storage_get "expires_at";
  if negb (truthy expiresAt) then mret false
  else mret (lt (Num (Int (now env))) expiresAt).

(** [async getUserInfo()] *)
Definition getUserInfo : M State UserInfo :=
  valid ← isTokenValid;
  if negb valid then throw (Error_ "No access token found")
  else
    a ← gets accessToken;
    if negb (truthy a) then throw (Error_ "No access token found")
    else
      try_catch
        (st ← gets (fun st => st);
         token ← storage_get "access_token";
         response ← await_fetch env
           {| url := infoURL (config st); method := GET;
              headers := [("Content-Type", "application/json");
                          ("Authorization", ToString (add (Str "Bearer ") token))];
              body := None |};
         data ← await_json response;
         mret (Claims data))
        (fun error => console_error error;; mret (ErrorObject error)).

Definition resume (k : Continuation) (data : gmap string Value) : M State unit :=
  match k with
  | AfterToken => onToken data
  | AfterRefresh => onRefresh data
  | AfterRevoke => onRevoke data
  | AfterUserInfo => mret tt
  end.

Definition checkPopupUrl (popup : Popup) : M State unit :=
  read_window_location popup;;
  try_catch
    (match popup with
     | PopupDetached | PopupClosed => clearInterval 500
     | PopupElsewhere => throw (Error_ "SecurityError")
     | PopupAt popupUrl code =>
         cfg ← gets config;
         if String.prefix (redirectURI cfg) popupUrl then
           clearInterval 500;;
           when (truthy code) (getAccessTokenFromCode code)
         else mret tt
     end)
    console_error.

(** What the promise of [login] resolves to.  [userinfo] is the promise
    of [getUserInfo], which has no own enumerable property, so
    [Object.assign] copies nothing from it. *)
Record LoginResult := {
  access_token : Value;
  refresh_token : Value;
  expires_at : Value;
  expires_in : Value
}.

(** [login]: the executor runs [authorize] (an exception rejects the
    promise), starts [getUserInfo], and calls [resolve] at once, before
    [.catch(reject)] can run; a later [reject] has no effect.
    [getUserInfo] writes neither a token field nor the storage, so
    letting it run to its end before the fields are read hands [resolve]
    the same object. *)
Definition login : M State LoginResult :=
  authorize;;
  (fun st => (Returned tt, snd (getUserInfo st)));;
  st ← gets (fun st => st);
  at_ ← storage_get "expires_at";
  in_ ← storage_get "expires_in";
  mret {| access_token := accessToken st; refresh_token := refreshToken st;
          expires_at := at_; expires_in := in_ |}.

End Methods.
End IndexTs.

(* ===================================================================== *)
(** ** The rewritten OAuthManager class *)
(* ===================================================================== *)

Module Manager.
Import JS Web Eff.

(** [OAuthManagerProps], as far as the constructor reads it. *)
Record Props := {
  props_clientId : string;
  props_clientSecret : string;
  props_redirectUri : string;
  props_scope : string;
  props_state : string;
  props_responseType : Value;
  props_authUrl : Value;
  props_tokenUrl : Value;
  props_revokeUrl : Value;
  props_userInfoUrl : Value
}.

Record State := {
  clientId : string;
  clientSecret : string;
  redirectUri : string;
  scope : string;
  state : string;
  responseType : string;
  authUrl : string;
  tokenUrl : string;
  revokeUrl : string;
  userInfoUrl : string;
  accessToken : Value;
  refreshToken : Value;
  expiry : Value;
  idToken : Value;
  hmacSecret : Value;
  storage : gmap string string;
  sent : list Request                        (* requests handed to fetch, oldest first *)
}.

Definition with_accessToken (x : Value) (st : State) : State :=
  {| clientId := clientId st; clientSecret := clientSecret st; redirectUri := redirectUri st;
     scope := scope st; state := state st; responseType := responseType st;
     authUrl := authUrl st; tokenUrl := tokenUrl st; revokeUrl := revokeUrl st;
     userInfoUrl := userInfoUrl st; accessToken := x; refreshToken := refreshToken st;
     expiry := expiry st; idToken := idToken st; hmacSecret := hmacSecret st;
     storage := storage st; sent := sent st |}.

Definition with_refreshToken (x : Value) (st : State) : State :=
  {| clientId := clientId st; clientSecret := clientSecret st; redirectUri := redirectUri st;
     scope := scope st; state := state st; responseType := responseType st;
     authUrl := authUrl st; tokenUrl := tokenUrl st; revokeUrl := revokeUrl st;
     userInfoUrl := userInfoUrl st; accessToken := accessToken st; refreshToken := x;
     expiry := expiry st; idToken := idToken st; hmacSecret := hmacSecret st;
     storage := storage st; sent := sent st |}.

Definition with_expiry (x : Value) (st : State) : State :=
  {| clientId := clientId st; clientSecret := clientSecret st; redirectUri := redirectUri st;
     scope := scope st; state := state st; responseType := responseType st;
     authUrl := authUrl st; tokenUrl := tokenUrl st; revokeUrl := revokeUrl st;
     userInfoUrl := userInfoUrl st; accessToken := accessToken st; refreshToken := refreshToken st;
     expiry := x; idToken := idToken st; hmacSecret := hmacSecret st;
     storage := storage st; sent := sent st |}.

Definition with_idToken (x : Value) (st : State) : State :=
  {| clientId := clientId st; clientSecret := clientSecret st; redirectUri := redirectUri st;
     scope := scope st; state := state st; responseType := responseType st;
     authUrl := authUrl st; tokenUrl := tokenUrl st; revokeUrl := revokeUrl st;
     userInfoUrl := userInfoUrl st; accessToken := accessToken st; refreshToken := refreshToken st;
     expiry := expiry st; idToken := x; hmacSecret := hmacSecret st;
     storage := storage st; sent := sent st |}.

Definition with_storage (x : gmap string string) (st : State) : State :=
  {| clientId := clientId st; clientSecret := clientSecret st; redirectUri := redirectUri st;
     scope := scope st; state := state st; responseType := responseType st;
     authUrl := authUrl st; tokenUrl := tokenUrl st; revokeUrl := revokeUrl st;
     userInfoUrl := userInfoUrl st; accessToken := accessToken st; refreshToken := refreshToken st;
     expiry := expiry st; idToken := idToken st; hmacSecret := hmacSecret st;
     storage := x; sent := sent st |}.

Definition with_sent (x : list Request) (st : State) : State :=
  {| clientId := clientId st; clientSecret := clientSecret st; redirectUri := redirectUri st;
     scope := scope st; state := state st; responseType := responseType st;
     authUrl := authUrl st; tokenUrl := tokenUrl st; revokeUrl := revokeUrl st;
     userInfoUrl := userInfoUrl st; accessToken := accessToken st; refreshToken := refreshToken st;
     expiry := expiry st; idToken := idToken st; hmacSecret := hmacSecret st;
     storage := storage st; sent := x |}.

Definition storage_get (k : string) : M State Value :=
  gets (fun st => Storage_get k (storage st)).

Definition storage_set (k : string) (v : Value) : M State unit :=
  modify (fun st => with_storage (Storage_set k v (storage st)) st).

Definition storage_remove (k : string) : M State unit :=
  modify (fun st => with_storage (Storage_remove k (storage st)) st).

(** [await fetch(req)] *)
Definition await_fetch (env : Env) (req : Request) : M State (Z * option (gmap string Value)) :=
  modify (fun st => with_sent (sent st ++ [req]) st);;
  match net env req with
  | NetworkError => throw FetchFailed
  | Response status json => mret (status, json)
  end.

(** [await response.json()] *)
Definition await_json (response : Z * option (gmap string Value)) : M State (gmap string Value) :=
  match snd response with
  | Some data => mret data
  | None => throw JsonSyntaxError
  end.

Definition after {A} (m : M State A) (st : State) : State := snd (m st).
Definition completion {A} (m : M State A) (st : State) : Completion A := fst (m st).

(** [parseInt(s)] on decimal input: an optional sign and the longest
    prefix of digits.  Leading white space and a 0x prefix, which the
    built-in also reads, do not occur in what [saveTokens] stores and are
    not modelled. *)
Definition is_digit (c : ascii) : bool :=
  let n := N_of_ascii c in ((48 <=? n) && (n <=? 57))%N.

Fixpoint digits_prefix (s : string) : string :=
  match s with
  | EmptyString => EmptyString
  | String c r => if is_digit c then String c (digits_prefix r) else EmptyString
  end.

Definition parseInt (s : string) : Number :=
  let unsigned (t : string) :=
    if is_empty (digits_prefix t) then NaN else StringToNumber (digits_prefix t) in
  match s with
  | String "-" r => number_mul (Int (-1)) (unsigned r)
  | String "+" r => unsigned r
  | _ => unsigned s
  end.

Section Methods.
Variable env : Env.

Definition loadTokens : M State unit :=
  a ← storage_get "access_token";
  modify (with_accessToken a);;
  r ← storage_get "refresh_token";
  modify (with_refreshToken r);;
  e ← storage_get "expiry";
  modify (with_expiry
            (Num (parseInt (ToString (match e with Undefined | Null => Str "0" | _ => e end)))));;
  i ← storage_get "id_token";
  modify (with_idToken i).

Definition constructor (props : Props) (store : gmap string string) (secret : Value) : State :=
  after loadTokens {|
    clientId := props_clientId props;
    clientSecret := props_clientSecret props;
    redirectUri := props_redirectUri props;
    scope := props_scope props;
    state := props_state props;
    responseType := ToString (or (props_responseType props) (Str "code"));
    authUrl := ToString (or (props_authUrl props) (Str "https://api.beyondigital.in/o/authorize"));
    tokenUrl := ToString (or (props_tokenUrl props) (Str "https://api.beyondigital.in/o/token"));
    revokeUrl :=
      ToString (or (props_revokeUrl props) (Str "https://api.beyondigital.in/o/revoke-token"));
    userInfoUrl :=
      ToString (or (props_userInfoUrl props) (Str "https://api.beyondigital.in/o/userinfo"));
    accessToken := Null;
    refreshToken := Null;
    expiry := Null;
    idToken := Null;
    hmacSecret := or secret Null;
    storage := store;
    sent := []
  |}.

Definition saveTokens (data : gmap string Value) : M State unit :=
  modify (with_accessToken (prop data "access_token"));;
  modify (with_refreshToken (or (prop data "refresh_token") Null));;
  modify (with_expiry
            (if truthy (prop data "expires_in")
             then add (Num (Int (now env))) (mul (prop data "expires_in") (Num (Int 1000)))
             else Null));;
  modify (with_idToken (or (prop data "id_token") Null));;
  a ← gets accessToken;
  storage_set "access_token" a;;
  r ← gets refreshToken;
  when (truthy r) (storage_set "refresh_token" r);;
  e ← gets expiry;
  when (truthy e) (storage_set "expiry" (Str (ToString e)));;
  i ← gets idToken;
  when (truthy i) (storage_set "id_token" i).

Definition clearTokens : M State unit :=
  modify (with_accessToken Null);;
  modify (with_refreshToken Null);;
  modify (with_expiry Null);;
  modify (with_idToken Null);;
  storage_remove "access_token";;
  storage_remove "refresh_token";;
  storage_remove "expiry";;
  storage_remove "id_token".

Definition getAuthorizationUrl : M State string :=
  st ← gets (fun st => st);
  let params :=
    [("response_type", responseType st);
     ("client_id", clientId st);
     ("redirect_uri", redirectUri st);
     ("scope", scope st);
     ("state", state st)] in
  mret (authUrl st +:+ "?" +:+ URLSearchParams_toString params).

Definition generateHmacSignature (data : string) : M State string :=
  secret ← gets hmacSecret;
  if negb (truthy secret) then throw (Error_ "HMAC secret is not provided")
  else mret (createHmac_sha256_hex env (ToString secret) data).

Definition fetchToken (code : string) : M State unit :=
  st ← gets (fun st => st);
  let body :=
    [("grant_type", Str "authorization_code");
     ("code", Str code);
     ("redirect_uri", Str (redirectUri st));
     ("client_id", Str (clientId st));
     ("client_secret", Str (clientSecret st))] in
  let headers := [("Content-Type", "application/json")] in
  secret ← gets hmacSecret;
  headers ←
    (if truthy secret then
       signature ← generateHmacSignature (JSON_stringify body);
       mret (headers ++ [("X-HMAC-Signature", signature)])
     else mret headers);
  response ← await_fetch env
    {| url := tokenUrl st; method := POST; headers := headers;
       body := Some (JSON_stringify body) |};
  data ← await_json response;
  saveTokens data.

Definition refreshAccessToken : M State unit :=
  r ← gets refreshToken;
  if negb (truthy r) then throw (Error_ "No refresh token available")
  else
    st ← gets (fun st => st);
    let body :=
      [("grant_type", Str "refresh_token");
       ("refresh_token", r);
       ("client_id", Str (clientId st));
       ("client_secret", Str (clientSecret st))] in
    let headers := [("Content-Type", "application/json")] in
    secret ← gets hmacSecret;
    headers ←
      (if truthy secret then
         signature ← generateHmacSignature (JSON_stringify body);
         mret (headers ++ [("X-HMAC-Signature", signature)])
       else mret headers);
    response ← await_fetch env
      {| url := tokenUrl st; method := POST; headers := headers;
         body := Some (JSON_stringify body) |};
    data ← await_json response;
    saveTokens data.

Definition revokeToken : M State unit :=
  a ← gets accessToken;
  if negb (truthy a) then throw (Error_ "No access token available")
  else
    st ← gets (fun st => st);
    let body := [("token", a)] in
    let headers := [("Content-Type", "application/json")] in
    secret ← gets hmacSecret;
    headers ←
      (if truthy secret then
         signature ← generateHmacSignature (JSON_stringify body);
         mret (headers ++ [("X-HMAC-Signature", signature)])
       else mret headers);
    await_fetch env
      {| url := revokeUrl st; method := POST; headers := headers;
         body := Some (JSON_stringify body) |};;
    clearTokens.

Definition fetchUserInfo : M State (gmap string Value) :=
  a ← gets accessToken;
  if negb (truthy a) then throw (Error_ "No access token available")
  else
    st ← gets (fun st => st);
    let headers := [("Authorization", "Bearer " +:+ ToString a)] in
    secret ← gets hmacSecret;
    headers ←
      (if truthy secret then
         signature ← generateHmacSignature (ToString a);
         mret (headers ++ [("X-HMAC-Signature", signature)])
       else mret headers);
    response ← await_fetch env
      {| url := userInfoUrl st; method := GET; headers := headers; body := None |};
    await_json response.

End Methods.
End Manager.

(* ===================================================================== *)
(** ** Sample collaborators and instances *)
(* ===================================================================== *)

Module Sample.
Import JS Web Eff.

(** 14 November 2023, 22:13:20 UTC, in milliseconds. *)
Definition t0 : Z := 1700000000000.

(** The token endpoint's answer of the specification's example. *)
Definition token_response : gmap string Value :=
  {[ "access_token" := Str "A"; "refresh_token" := Str "R";
     "expires_in" := Num (Int 3600) ]}.

(** An environment whose transport settles every request with [outcome]. *)
Definition env_with (outcome : FetchOutcome) : Env := {|
  now := t0;
  net := fun _ => outcome;
  random53 := fun n => (N.of_nat n * 1234567890123457)%N;
  SHA256_base64url := fun s => "sha256:" +:+ s;
  createHmac_sha256_hex := fun key data => "hmac:" +:+ key +:+ ":" +:+ data;
  popup_blocked := false
|}.

Definition env_ok : Env := env_with (Response 200 (Some token_response)).
Definition env_500 : Env := env_with (Response 500 None).
Definition env_offline : Env := env_with NetworkError.

Definition options : Browser.Config := {|
  Browser.clientID := "cid";
  Browser.redirectURI := "https://app.example/cb";
  Browser.scope := Str "openid profile";
  Browser.responseType := "authorization_code";
  Browser.authorizeURL := "http://jae.local:8000/o/authorize/";
  Browser.tokenURL := "http://jae.local:8000/o/token/";
  Browser.revokeURL := "http://jae.local:8000/o/revoke-token/";
  Browser.refreshURL := "http://jae.local:8000/o/token/";
  Browser.infoURL := "http://jae.local:8000/o/userinfo/";
  Browser.withPKCE := true;
  Browser.openWindow := OpenerUndefined;
  Browser.clientHeader := []
|}.

(** The value a call returned, or [d] when it threw. *)
Definition or_else {A} (c : Completion A) (d : A) : A :=
  match c with Returned a => a | Thrown _ => d end.

Definition blank : Browser.State := {|
  Browser.config := options;
  Browser.accessToken := Null; Browser.refreshToken := Null;
  Browser.codeVerifier := Undefined;
  Browser.storage := ∅; Browser.sent := []; Browser.inflight := [];
  Browser.console_errors := []; Browser.draws := []; Browser.popups := [];
  Browser.intervals := []; Browser.alerts := []
|}.

(** index.js, freshly initialised on an empty storage ... *)
Definition js_fresh : Browser.State := or_else (IndexJs.init options ∅) blank.

(** ... and after a code exchange answered with [token_response]. *)
Definition js_logged_in : Browser.State :=
  Browser.after (IndexJs.getAccessToken (Str "the-code");;
                 Browser.run_inflight env_ok (IndexJs.resume env_ok)) js_fresh.

(** index.js initialised on a storage that holds an access token only. *)
Definition js_token_only : Browser.State :=
  or_else (IndexJs.init options {[ "access_token" := "A" ]}) blank.

(** The TypeScript port, the same way. *)
Definition ts_fresh : Browser.State :=
  or_else (IndexTs.init options (IndexTs.ScopeArray ["openid"; "profile"]) ∅) blank.

Definition ts_logged_in : Browser.State :=
  Browser.after (IndexTs.getAccessTokenFromCode (Str "the-code");;
                 Browser.run_inflight env_ok (IndexTs.resume env_ok)) ts_fresh.

Definition ts_token_only : Browser.State :=
  or_else (IndexTs.init options (IndexTs.ScopeValue Undefined) {[ "access_token" := "A" ]}) blank.

(** The port after a session was revoked: [onRevoke] removed the two
    token keys, the two expiry keys are still stored. *)
Definition ts_revoked : Browser.State :=
  Browser.after (IndexTs.revokeToken;;
                 Browser.run_inflight env_ok (IndexTs.resume env_ok)) ts_logged_in.

End Sample.

(* ===================================================================== *)
(** ** Vocabulary of the statements *)
(* ===================================================================== *)

Import JS Web Eff.

(** The four token fields are null and their four keys are gone. *)
Definition tokens_cleared (st : Manager.State) : Prop :=
  Manager.accessToken st = Null /\ Manager.refreshToken st = Null /\
  Manager.expiry st = Null /\ Manager.idToken st = Null /\
  Manager.storage st !! "access_token" = None /\
  Manager.storage st !! "refresh_token" = None /\
  Manager.storage st !! "expiry" = None /\
  Manager.storage st !! "id_token" = None.

(** The headers of an exchange request whose serialized body is
    [serialized], as the three exchange methods build them. *)
Definition exchange_headers (env : Env) (st : Manager.State) (serialized : string)
    : list (string * string) :=
  [("Content-Type", "application/json")] ++
  (if truthy (Manager.hmacSecret st)
   then [("X-HMAC-Signature",
          createHmac_sha256_hex env (ToString (Manager.hmacSecret st)) serialized)]
   else []).

Definition exchange_request (env : Env) (st : Manager.State) (endpoint : string)
    (body : list (string * Value)) : Request :=
  {| url := endpoint; method := POST;
     headers := exchange_headers env st (JSON_stringify body);
     body := Some (JSON_stringify body) |}.

Definition revoke_request (env : Env) (st : Manager.State) : Request :=
  exchange_request env st (Manager.revokeUrl st) [("token", Manager.accessToken st)].

Definition refresh_request (env : Env) (st : Manager.State) : Request :=
  exchange_request env st (Manager.tokenUrl st)
    [("grant_type", Str "refresh_token");
     ("refresh_token", Manager.refreshToken st);
     ("client_id", Str (Manager.clientId st));
     ("client_secret", Str (Manager.clientSecret st))].

Definition code_request (env : Env) (st : Manager.State) (code : string) : Request :=
  exchange_request env st (Manager.tokenUrl st)
    [("grant_type", Str "authorization_code");
     ("code", Str code);
     ("redirect_uri", Str (Manager.redirectUri st));
     ("client_id", Str (Manager.clientId st));
     ("client_secret", Str (Manager.clientSecret st))].

Definition mgr_props : Manager.Props := {|
  Manager.props_clientId := "cid"; Manager.props_clientSecret := "s3cret";
  Manager.props_redirectUri := "https://app.example/cb";
  Manager.props_scope := "openid profile"; Manager.props_state := "xyz";
  Manager.props_responseType := Undefined; Manager.props_authUrl := Undefined;
  Manager.props_tokenUrl := Undefined; Manager.props_revokeUrl := Undefined;
  Manager.props_userInfoUrl := Undefined |}.

Definition mgr_fresh : Manager.State := Manager.constructor mgr_props ∅ Undefined.

Definition mgr_logged_in : Manager.State :=
  Manager.after (Manager.fetchToken Sample.env_ok "the-code") mgr_fresh.

(** The token endpoint answering without a refresh token. *)
Definition response_without_refresh : gmap string Value :=
  {[ "access_token" := Str "A2"; "expires_in" := Num (Int 3600) ]}.

Definition env_no_rotation : Env :=
  Sample.env_with (Response 200 (Some response_without_refresh)).

(** The state [saveTokens data] leaves. *)
Definition saved (env : Env) (data : gmap string Value) (st : Manager.State) : Manager.State :=
  let a := prop data "access_token" in
  let r := or (prop data "refresh_token") Null in
  let e := if truthy (prop data "expires_in")
           then add (Num (Int (now env))) (mul (prop data "expires_in") (Num (Int 1000)))
           else Null in
  let i := or (prop data "id_token") Null in
  let s1 := <["access_token" := ToString a]> (Manager.storage st) in
  let s2 := if truthy r then <["refresh_token" := ToString r]> s1 else s1 in
  let s3 := if truthy e then <["expiry" := ToString e]> s2 else s2 in
  let s4 := if truthy i then <["id_token" := ToString i]> s3 else s3 in
  Manager.with_storage s4
    (Manager.with_idToken i (Manager.with_expiry e
       (Manager.with_refreshToken r (Manager.with_accessToken a st)))).

(** The refresh request of the browser classes. *)
Definition browser_refresh_request (st : Browser.State) : Request :=
  {| url := Browser.refreshURL (Browser.config st); method := POST;
     headers := Browser.clientHeader (Browser.config st);
     body := Some (JSON_stringify
                     [("client_id", Str (Browser.clientID (Browser.config st)));
                      ("grant_type", Str "refresh_token");
                      ("refresh_token", Browser.refreshToken st)]) |}.

Definition browser_revoke_request (st : Browser.State) : Request :=
  {| url := Browser.revokeURL (Browser.config st); method := POST;
     headers := Browser.clientHeader (Browser.config st);
     body := Some (JSON_stringify
                     [("client_id", Str (Browser.clientID (Browser.config st)));
                      ("token", Browser.accessToken st)]) |}.

Definition browser_userinfo_request (st : Browser.State) : Request :=
  {| url := Browser.infoURL (Browser.config st); method := GET;
     headers := [("Content-Type", "application/json");
                 ("Authorization",
                  "Bearer " +:+ ToString (Storage_get "access_token" (Browser.storage st)))];
     body := None |}.

(** [st] once [req] has left and its chain waits to continue with [k]. *)
Definition started (req : Request) (k : Browser.Continuation) (st : Browser.State)
    : Browser.State :=
  Browser.with_inflight (Browser.inflight st ++ [(req, k)])
    (Browser.with_sent (Browser.sent st ++ [req]) st).

Definition mgr_userinfo_request (env : Env) (st : Manager.State) : Request :=
  {| url := Manager.userInfoUrl st; method := GET;
     headers :=
       [("Authorization", "Bearer " +:+ ToString (Manager.accessToken st))] ++
       (if truthy (Manager.hmacSecret st)
        then [("X-HMAC-Signature",
               createHmac_sha256_hex env (ToString (Manager.hmacSecret st))
                 (ToString (Manager.accessToken st)))]
        else []);
     body := None |}.

(** A manager whose stored token expired long ago. *)
Definition mgr_expired : Manager.State :=
  Manager.constructor mgr_props
    {[ "access_token" := "A"; "expiry" := "1000" ]} Undefined.

(** The four keys [logout] of the port removes. *)
Definition logout_keys_removed (store : gmap string string) : Prop :=
  store !! "access_token" = None /\ store !! "refresh_token" = None /\
  store !! "expires_in" = None /\ store !! "expires_at" = None.

(** The exchange operations of the rewritten manager. *)
Inductive Exchange :=
| CodeExchange (code : string)
| Refresh
| Revoke.

Definition exchange (env : Env) (x : Exchange) : M Manager.State unit :=
  match x with
  | CodeExchange code => Manager.fetchToken env code
  | Refresh => Manager.refreshAccessToken env
  | Revoke => Manager.revokeToken env
  end.

(** Whether the guard of the operation lets it reach [fetch]. *)
Definition exchange_ready (x : Exchange) (st : Manager.State) : bool :=
  match x with
  | CodeExchange _ => true
  | Refresh => truthy (Manager.refreshToken st)
  | Revoke => truthy (Manager.accessToken st)
  end.

Definition request_of (env : Env) (st : Manager.State) (x : Exchange) : Request :=
  match x with
  | CodeExchange code => code_request env st code
  | Refresh => refresh_request env st
  | Revoke => revoke_request env st
  end.

(** The request carries the hex HMAC-SHA256 of its own body under
    X-HMAC-Signature when a secret is set, and no such header otherwise. *)
Definition signed_as_configured (env : Env) (st : Manager.State) (req : Request) : Prop :=
  exists serialized,
    body req = Some serialized /\
    header "X-HMAC-Signature" (headers req) =
      if truthy (Manager.hmacSecret st)
      then Some (createHmac_sha256_hex env (ToString (Manager.hmacSecret st)) serialized)
      else None.

(** A manager constructed with the shared secret "k3y". *)
Definition mgr_signing : Manager.State :=
  Manager.constructor mgr_props {[ "access_token" := "A"; "refresh_token" := "R" ]} (Str "k3y").

(** The unreserved characters of RFC 3986: letters, digits, and -._~ *)
Definition unreserved (c : ascii) : bool := is_alnum c || one_of "-._~" c.



(** The token fields and the storage of two manager states agree. *)
Definition same_tokens (st st' : Manager.State) : Prop :=
  Manager.accessToken st' = Manager.accessToken st /\
  Manager.refreshToken st' = Manager.refreshToken st /\
  Manager.expiry st' = Manager.expiry st /\
  Manager.idToken st' = Manager.idToken st /\
  Manager.storage st' = Manager.storage st.

(** The configuration of two manager states agrees. *)
Definition same_config (st st' : Manager.State) : Prop :=
  Manager.clientId st' = Manager.clientId st /\
  Manager.clientSecret st' = Manager.clientSecret st /\
  Manager.redirectUri st' = Manager.redirectUri st /\
  Manager.scope st' = Manager.scope st /\
  Manager.state st' = Manager.state st /\
  Manager.responseType st' = Manager.responseType st /\
  Manager.authUrl st' = Manager.authUrl st /\
  Manager.tokenUrl st' = Manager.tokenUrl st /\
  Manager.revokeUrl st' = Manager.revokeUrl st /\
  Manager.userInfoUrl st' = Manager.userInfoUrl st /\
  Manager.hmacSecret st' = Manager.hmacSecret st.

(** Every public operation of the rewritten manager. *)
Inductive Operation :=
| OpAuthorizationUrl
| OpFetchToken (code : string)
| OpRefresh
| OpRevoke
| OpUserInfo.

(** The operation run for its effect on the state. *)
Definition effect (env : Env) (op : Operation) (st : Manager.State) : Manager.State :=
  match op with
  | OpAuthorizationUrl => Manager.after Manager.getAuthorizationUrl st
  | OpFetchToken code => Manager.after (Manager.fetchToken env code) st
  | OpRefresh => Manager.after (Manager.refreshAccessToken env) st
  | OpRevoke => Manager.after (Manager.revokeToken env) st
  | OpUserInfo => Manager.after (Manager.fetchUserInfo env) st
  end.

(** A token value as a token endpoint sends it: a string, or absent. *)
Definition string_or_absent (v : Value) : Prop :=
  v = Undefined \/ exists s, v = Str s.

(** The example answer with an ID token. *)
Definition oidc_response : gmap string Value :=
  {[ "access_token" := Str "A"; "refresh_token" := Str "R";
     "id_token" := Str "I"; "expires_in" := Num (Int 3600) ]}.

Definition env_oidc : Env := Sample.env_with (Response 200 (Some oidc_response)).

(** An OAuth error answer. *)
Definition error_response : gmap string Value :=
  {[ "error" := Str "invalid_grant" ]}.

Definition env_rejected : Env := Sample.env_with (Response 400 (Some error_response)).

(** The token endpoint rotating the refresh token. *)
Definition rotating_response : gmap string Value :=
  {[ "access_token" := Str "A2"; "refresh_token" := Str "R2";
     "expires_in" := Num (Int 3600) ]}.

Definition env_rotating : Env := Sample.env_with (Response 200 (Some rotating_response)).

(** The token request of index.js for [code]. *)
Definition js_token_request (st : Browser.State) (code : Value) : Request :=
  {| url := Browser.tokenURL (Browser.config st); method := POST;
     headers := [("Accept", "*/*");
                 ("Content-Type", "application/x-www-form-urlencoded")];
     body := Some (IndexJs.form_body
                     [("client_id", Str (Browser.clientID (Browser.config st)));
                      ("redirect_uri", Str (Browser.redirectURI (Browser.config st)));
                      ("grant_type", Str "authorization_code");
                      ("code", code);
                      ("code_verifier", Browser.codeVerifier st)]) |}.

(** The token request of the port for [code]. *)
Definition ts_token_request (st : Browser.State) (code : Value) : Request :=
  {| url := Browser.tokenURL (Browser.config st); method := POST;
     headers := [("Accept", "*/*");
                 ("Content-Type", "application/x-www-form-urlencoded")];
     body := Some (IndexTs.form_body
                     ([("client_id", Str (Browser.clientID (Browser.config st)));
                       ("redirect_uri", Str (Browser.redirectURI (Browser.config st)));
                       ("grant_type",
                        Str (if String.eqb (Browser.responseType (Browser.config st)) "code"
                             then "authorization_code" else "token"));
                       ("code", code)] ++
                      (if Browser.withPKCE (Browser.config st)
                       then [("code_verifier", Browser.codeVerifier st)] else []))) |}.

(** The state [authorize] leaves once its URL is built: with PKCE, 64
    more draws, the verifier in the instance and under code_verifier. *)
Definition url_built (verifier : string) (st : Browser.State) : Browser.State :=
  if Browser.withPKCE (Browser.config st) then
    Browser.with_storage (<["code_verifier" := verifier]> (Browser.storage st))
      (Browser.with_codeVerifier (Str verifier)
         (Browser.with_draws (Browser.draws st ++ repeat MathRandom 64) st))
  else st.

(** The token fields and the stored expiry keys of two browser states
    agree. *)
Definition same_session (st st' : Browser.State) : Prop :=
  Browser.accessToken st' = Browser.accessToken st /\
  Browser.refreshToken st' = Browser.refreshToken st /\
  Browser.storage st' !! "access_token" = Browser.storage st !! "access_token" /\
  Browser.storage st' !! "refresh_token" = Browser.storage st !! "refresh_token" /\
  Browser.storage st' !! "expires_in" = Browser.storage st !! "expires_in" /\
  Browser.storage st' !! "expires_at" = Browser.storage st !! "expires_at" /\
  Browser.storage st' !! "expiry" = Browser.storage st !! "expiry".

(** An opener that reports the code "the-code" and has no [close]. *)
Definition opener_with_code : Opener :=
  OpenerFunction (fun _ => Returned {| code_of := Str "the-code"; has_close := false |}).

Definition options_with_opener : Browser.Config := {|
  Browser.clientID := "cid";
  Browser.redirectURI := "https://app.example/cb";
  Browser.scope := Str "openid profile";
  Browser.responseType := "authorization_code";
  Browser.authorizeURL := "http://jae.local:8000/o/authorize/";
  Browser.tokenURL := "http://jae.local:8000/o/token/";
  Browser.revokeURL := "http://jae.local:8000/o/revoke-token/";
  Browser.refreshURL := "http://jae.local:8000/o/token/";
  Browser.infoURL := "http://jae.local:8000/o/userinfo/";
  Browser.withPKCE := true;
  Browser.openWindow := opener_with_code;
  Browser.clientHeader := []
|}.


Definition ts_with_opener : Browser.State :=
  Sample.or_else (IndexTs.init options_with_opener (IndexTs.ScopeValue (Str "openid")) ∅)
    Sample.blank.

(** The popup is readable and at a URL that starts with the redirect URI. *)
Definition at_redirect (st : Browser.State) (popup : Browser.Popup) : bool :=
  match popup with
  | Browser.PopupAt href _ => String.prefix (Browser.redirectURI (Browser.config st)) href
  | _ => false
  end.

(** The code the popup's URL carries, null when it carries none. *)
Definition popup_code (popup : Browser.Popup) : Value :=
  match popup with
  | Browser.PopupAt _ code => code
  | _ => Null
  end.

(** The popup is closed and [authWindow.window] is null. *)
Definition window_is_null (popup : Browser.Popup) : bool :=
  match popup with
  | Browser.PopupDetached => true
  | _ => false
  end.

(** A tick that ends the polling: the popup was found closed, its window
    still readable, or has arrived. *)
Definition ends_polling (st : Browser.State) (popup : Browser.Popup) : bool :=
  match popup with
  | Browser.PopupDetached => false
  | Browser.PopupClosed => true
  | _ => at_redirect st popup
  end.

(** The token fields of an answer are held exactly: strings, as a token
    endpoint sends them, null, absent, or safe integers. *)
Definition tokens_exactly_held (data : gmap string Value) : bool :=
  exactly_held (prop data "access_token") &&
  exactly_held (prop data "refresh_token") &&
  exactly_held (prop data "id_token").

(** What the key expires_at holds when nothing but the port wrote it, for
    lifetimes that are whole numbers or missing: no entry, the empty
    string, "NaN", or an integer in plain decimal digits. *)
Definition written_expiry (stored : option string) : bool :=
  match stored with
  | None => true
  | Some s => is_empty s || String.eqb s "NaN" || decimal_integer s
  end.

(** index.js with the default popup, once [authorize] has run. *)
Definition js_polling : Browser.State :=
  Browser.after (IndexJs.authorize Sample.env_ok) Sample.js_fresh.

(* ===================================================================== *)
(** * Properties *)
(* ===================================================================== *)


Arguments StringToNumber : simpl never.
Arguments NumberToString : simpl never.

(** Unfold one layer of the monad and compute. *)
Ltac step :=
  unfold mbind, mret, M_bind, M_ret, gets, modify, throw, try_catch, when,
    Browser.after, Browser.completion, Manager.after, Manager.completion; cbn.

(** ** Truthiness of stored values *)

Lemma truthy_Str (s : string) : truthy (Str s) = true <-> s <> EmptyString.
Proof. destruct s; cbn; split; congruence. Qed.

Lemma Storage_get_truthy (k : string) (m : gmap string string) :
  truthy (Storage_get k m) = true <-> exists s, m !! k = Some s /\ s <> EmptyString.
Proof.
  unfold Storage_get. destruct (m !! k) as [s|] eqn:E.
  - rewrite truthy_Str. split; [intros H; exists s; auto | intros (s' & [= <-] & H); auto].
  - cbn. split; [discriminate | intros (s & [=] & _)].
Qed.

(** ** Validity of the stored token *)

(** C1 (index.js).  The validity check is meant to answer true or false
    and never to throw.  In index.js, as soon as a non-empty [expires_in]
    is stored (which every code exchange does), [isTokenValid] goes on to
    compare against the undeclared [expiresAt] and throws a
    ReferenceError instead of answering. *)
Theorem js_isTokenValid_throws (st : Browser.State) (s : string) :
  Browser.storage st !! "expires_in" = Some s -> s <> EmptyString ->
  IndexJs.isTokenValid st = (Thrown (ReferenceError "expiresAt"), st).
Proof.
  intros Hs Hne. unfold IndexJs.isTokenValid, Browser.storage_get. step.
  unfold Storage_get. rewrite Hs. destruct s; [congruence | reflexivity].
Qed.

(** The instance right after the example code exchange is such a state. *)
Lemma js_isTokenValid_throws_witness :
  Browser.storage Sample.js_logged_in !! "expires_in" = Some "3600" /\
  IndexJs.isTokenValid Sample.js_logged_in =
    (Thrown (ReferenceError "expiresAt"), Sample.js_logged_in).
Proof.
  split; [vm_compute; reflexivity |].
  apply (js_isTokenValid_throws Sample.js_logged_in "3600");
    [vm_compute; reflexivity | discriminate].
Defined.

(** Without a stored lifetime index.js answers false, whatever [expiry]
    holds. *)
Lemma js_isTokenValid_without_lifetime (st : Browser.State) :
  truthy (Storage_get "expires_in" (Browser.storage st)) = false ->
  IndexJs.isTokenValid st = (Returned false, st).
Proof.
  intros H. unfold IndexJs.isTokenValid, Browser.storage_get. step. rewrite H. reflexivity.
Qed.

(** The TypeScript port declares the constant it compares against: its
    check always answers, and leaves the state alone. *)
Lemma ts_isTokenValid_total (env : Env) (st : Browser.State) :
  exists b, IndexTs.isTokenValid env st = (Returned b, st).
Proof.
  unfold IndexTs.isTokenValid, Browser.storage_get. step.
  destruct (truthy _); cbn; eauto.
Qed.

(** It answers true exactly when [expires_at] is stored, non-empty, and
    denotes a time strictly after now. *)
Lemma ts_isTokenValid_true_iff (env : Env) (st : Browser.State) :
  IndexTs.isTokenValid env st = (Returned true, st) <->
  exists s z, Browser.storage st !! "expires_at" = Some s /\ s <> EmptyString /\
              StringToNumber s = Int z /\ now env < z.
Proof.
  unfold IndexTs.isTokenValid, Browser.storage_get. step.
  unfold Storage_get. destruct (Browser.storage st !! "expires_at") as [s|] eqn:E; cbn.
  - destruct s as [|c r]; cbn.
    + split; [discriminate | intros (s & z & [= <-] & H & _); congruence].
    + destruct (StringToNumber (String c r)) as [|z] eqn:En; cbn.
      * split; [discriminate | intros (s & z & [= <-] & _ & H & _); congruence].
      * split.
        -- intros [= H]. exists (String c r), z.
           split; [reflexivity |]. split; [discriminate |]. split; [assumption | lia].
        -- intros (s & z' & [= <-] & _ & H & Hlt). assert (z' = z) by congruence. subst.
           f_equal. f_equal. lia.
  - split; [discriminate | intros (s & z & [=] & _)].
Qed.

Lemma ts_isTokenValid_absent (env : Env) (st : Browser.State) :
  Browser.storage st !! "expires_at" = None ->
  IndexTs.isTokenValid env st = (Returned false, st).
Proof.
  intros H. unfold IndexTs.isTokenValid, Browser.storage_get. step.
  unfold Storage_get. rewrite H. reflexivity.
Qed.

(** ** Revocation in the rewritten manager *)

Lemma clearTokens_run (st : Manager.State) :
  Manager.clearTokens st =
    (Returned tt,
     Manager.with_storage
       (delete "id_token" (delete "expiry" (delete "refresh_token"
          (delete "access_token" (Manager.storage st)))))
       (Manager.with_idToken Null (Manager.with_expiry Null
          (Manager.with_refreshToken Null (Manager.with_accessToken Null st))))).
Proof. reflexivity. Qed.

Lemma clearTokens_cleared (st : Manager.State) :
  tokens_cleared (snd (Manager.clearTokens st)).
Proof.
  rewrite clearTokens_run. unfold tokens_cleared. cbn.
  repeat split; simplify_map_eq; reflexivity.
Qed.

(** [revokeToken], run: the guard, the one request, and then either the
    rejection of [fetch] or [clearTokens]. *)
Lemma mgr_revokeToken_run (env : Env) (st : Manager.State) :
  Manager.revokeToken env st =
    if truthy (Manager.accessToken st) then
      let st1 := Manager.with_sent (Manager.sent st ++ [revoke_request env st]) st in
      match net env (revoke_request env st) with
      | NetworkError => (Thrown FetchFailed, st1)
      | Response _ _ => Manager.clearTokens st1
      end
    else (Thrown (Error_ "No access token available"), st).
Proof.
  unfold Manager.revokeToken, Manager.generateHmacSignature, Manager.await_fetch,
    revoke_request, exchange_request, exchange_headers.
  step. destruct (truthy (Manager.accessToken st)); cbn; [| reflexivity].
  destruct (truthy (Manager.hmacSecret st)) eqn:Hs; cbn; rewrite ?Hs; cbn;
    destruct (net env _); reflexivity.
Qed.

(** C2 (amended).  With an access token present, [revokeToken] of the
    rewritten manager sends one request to the revoke endpoint; whenever
    the transport delivers a response, whatever its status or body, the
    call returns, the four token fields are null and the four keys
    access_token, refresh_token, expiry and id_token are removed; when the
    transport fails, the call is rejected and, apart from the request
    log, the state is what it was. *)
Theorem mgr_revokeToken_clears_after_response (env : Env) (st : Manager.State) :
  truthy (Manager.accessToken st) = true ->
  Manager.sent (Manager.after (Manager.revokeToken env) st) =
    Manager.sent st ++ [revoke_request env st] /\
  match net env (revoke_request env st) with
  | Response _ _ =>
      Manager.completion (Manager.revokeToken env) st = Returned tt /\
      tokens_cleared (Manager.after (Manager.revokeToken env) st)
  | NetworkError =>
      Manager.completion (Manager.revokeToken env) st = Thrown FetchFailed /\
      Manager.after (Manager.revokeToken env) st =
        Manager.with_sent (Manager.sent st ++ [revoke_request env st]) st
  end.
Proof.
  intros Ha. unfold Manager.after, Manager.completion.
  rewrite mgr_revokeToken_run, Ha. cbn zeta.
  destruct (net env (revoke_request env st)) as [|status json].
  - cbn. auto.
  - split; [reflexivity |]. split; [reflexivity |]. apply clearTokens_cleared.
Qed.

(** A server answering 500 with a body that is not JSON still clears. *)
Lemma mgr_revokeToken_clears_after_response_witness :
  truthy (Manager.accessToken mgr_logged_in) = true /\
  Manager.completion (Manager.revokeToken Sample.env_500) mgr_logged_in = Returned tt /\
  tokens_cleared (Manager.after (Manager.revokeToken Sample.env_500) mgr_logged_in).
Proof.
  split; [reflexivity |].
  apply (mgr_revokeToken_clears_after_response Sample.env_500 mgr_logged_in). reflexivity.
Defined.

(** C2 (as stated) fails when the transport fails: the tokens of the
    logged-in manager are still in memory and in storage after
    [revokeToken] was rejected. *)
Lemma mgr_revokeToken_offline_keeps_tokens :
  truthy (Manager.accessToken mgr_logged_in) = true /\
  Manager.completion (Manager.revokeToken Sample.env_offline) mgr_logged_in =
    Thrown FetchFailed /\
  Manager.accessToken (Manager.after (Manager.revokeToken Sample.env_offline) mgr_logged_in) =
    Str "A" /\
  Manager.storage (Manager.after (Manager.revokeToken Sample.env_offline) mgr_logged_in)
    !! "access_token" = Some "A" /\
  ~ tokens_cleared (Manager.after (Manager.revokeToken Sample.env_offline) mgr_logged_in).
Proof.
  split; [reflexivity |]. split; [vm_compute; reflexivity |].
  split; [vm_compute; reflexivity |]. split; [vm_compute; reflexivity |].
  intros (H & _). vm_compute in H. discriminate.
Qed.

(** ** Saving tokens in the rewritten manager *)

Lemma mgr_saveTokens_run (env : Env) (data : gmap string Value) (st : Manager.State) :
  Manager.saveTokens env data st = (Returned tt, saved env data st).
Proof.
  unfold Manager.saveTokens, saved, Manager.storage_set, Storage_set.
  generalize (prop data "access_token") as a.
  generalize (or (prop data "refresh_token") Null) as r.
  generalize (if truthy (prop data "expires_in")
              then add (Num (Int (now env))) (mul (prop data "expires_in") (Num (Int 1000)))
              else Null) as e.
  generalize (or (prop data "id_token") Null) as i.
  intros i e r a. step.
  destruct (truthy r); cbn; destruct (truthy e); cbn; destruct (truthy i); reflexivity.
Qed.

Lemma mgr_fetchToken_run (env : Env) (code : string) (st : Manager.State) :
  Manager.fetchToken env code st =
    let st1 := Manager.with_sent (Manager.sent st ++ [code_request env st code]) st in
    match net env (code_request env st code) with
    | NetworkError => (Thrown FetchFailed, st1)
    | Response _ None => (Thrown JsonSyntaxError, st1)
    | Response _ (Some data) => (Returned tt, saved env data st1)
    end.
Proof.
  unfold Manager.fetchToken, Manager.generateHmacSignature, Manager.await_fetch,
    Manager.await_json, code_request, exchange_request, exchange_headers.
  step.
  destruct (truthy (Manager.hmacSecret st)) eqn:Hs; cbn; rewrite ?Hs; cbn;
    (destruct (net env _) as [|status [data|]]; cbn;
     [reflexivity | apply mgr_saveTokens_run | reflexivity]).
Qed.

Lemma mgr_refreshAccessToken_run (env : Env) (st : Manager.State) :
  Manager.refreshAccessToken env st =
    if truthy (Manager.refreshToken st) then
      let st1 := Manager.with_sent (Manager.sent st ++ [refresh_request env st]) st in
      match net env (refresh_request env st) with
      | NetworkError => (Thrown FetchFailed, st1)
      | Response _ None => (Thrown JsonSyntaxError, st1)
      | Response _ (Some data) => (Returned tt, saved env data st1)
      end
    else (Thrown (Error_ "No refresh token available"), st).
Proof.
  unfold Manager.refreshAccessToken, Manager.generateHmacSignature, Manager.await_fetch,
    Manager.await_json, refresh_request, exchange_request, exchange_headers.
  step. destruct (truthy (Manager.refreshToken st)); cbn; [| reflexivity].
  destruct (truthy (Manager.hmacSecret st)) eqn:Hs; cbn; rewrite ?Hs; cbn;
    (destruct (net env _) as [|status [data|]]; cbn;
     [reflexivity | apply mgr_saveTokens_run | reflexivity]).
Qed.

Lemma truthy_or_Null (v : Value) : truthy (or v Null) = truthy v.
Proof. unfold or. destruct (truthy v) eqn:E; [assumption | reflexivity]. Qed.

Lemma or_Null_truthy (v : Value) : truthy v = true -> or v Null = v.
Proof. unfold or. intros ->. reflexivity. Qed.

Lemma or_Null_falsy (v : Value) : truthy v = false -> or v Null = Null.
Proof. unfold or. intros ->. reflexivity. Qed.

(** C3 (amended).  When the token endpoint answers [fetchToken] with a
    JSON object whose token fields are strings (or null, absent, or safe
    integers) and whose expires_in is a positive whole number of seconds,
    with now + expires_in * 1000 still a safe integer (at most 2^53 - 1,
    the range in which the arithmetic of the class is exact and the
    number prints as plain digits), the call returns; the expiry in
    memory is now + expires_in * 1000 and its decimal form is stored
    under expiry; the access token is stored under access_token;
    refresh_token and id_token are stored when the answer carries a
    non-empty value for them and keep their stored value otherwise; no
    other key is written. *)
Theorem mgr_fetchToken_saves (env : Env) (st : Manager.State) (code : string)
    (status : Z) (data : gmap string Value) (e : Z) :
  net env (code_request env st code) = Response status (Some data) ->
  tokens_exactly_held data = true ->
  prop data "expires_in" = Num (Int e) -> 0 < e -> 0 <= now env ->
  now env + e * 1000 <= MAX_SAFE_INTEGER ->
  let st' := Manager.after (Manager.fetchToken env code) st in
  Manager.completion (Manager.fetchToken env code) st = Returned tt /\
  Manager.accessToken st' = prop data "access_token" /\
  Manager.refreshToken st' = or (prop data "refresh_token") Null /\
  Manager.idToken st' = or (prop data "id_token") Null /\
  Manager.expiry st' = Num (Int (now env + e * 1000)) /\
  Manager.storage st' !! "expiry" = Some (NumberToString (Int (now env + e * 1000))) /\
  Manager.storage st' !! "access_token" = Some (ToString (prop data "access_token")) /\
  Manager.storage st' !! "refresh_token" =
    (if truthy (prop data "refresh_token")
     then Some (ToString (prop data "refresh_token"))
     else Manager.storage st !! "refresh_token") /\
  Manager.storage st' !! "id_token" =
    (if truthy (prop data "id_token")
     then Some (ToString (prop data "id_token"))
     else Manager.storage st !! "id_token") /\
  (forall k, k <> "access_token" -> k <> "refresh_token" -> k <> "expiry" ->
             k <> "id_token" -> Manager.storage st' !! k = Manager.storage st !! k).
Proof.
  intros Hnet _ He Hpos Hnow _ st'. subst st'.
  unfold Manager.after, Manager.completion. rewrite mgr_fetchToken_run. cbn zeta.
  rewrite Hnet. cbn [fst snd]. unfold saved. rewrite He.
  assert (Ht : truthy (Num (Int e)) = true) by (cbn; apply negb_true_iff, Z.eqb_neq; lia).
  rewrite Ht. cbn [add mul ToNumber number_add number_mul ToString].
  assert (Hx : truthy (Num (Int (now env + e * 1000))) = true)
    by (cbn; apply negb_true_iff, Z.eqb_neq; lia).
  rewrite Hx. rewrite !truthy_or_Null.
  cbn [Manager.accessToken Manager.refreshToken Manager.idToken Manager.expiry
       Manager.storage Manager.with_storage Manager.with_idToken Manager.with_expiry
       Manager.with_refreshToken Manager.with_accessToken Manager.with_sent].
  split; [reflexivity |]. split; [reflexivity |]. split; [reflexivity |].
  split; [reflexivity |]. split; [reflexivity |].
  destruct (truthy (prop data "refresh_token")) eqn:Hr;
    destruct (truthy (prop data "id_token")) eqn:Hi;
    rewrite ?(or_Null_truthy _ Hr), ?(or_Null_truthy _ Hi);
    repeat split; intros; simplify_map_eq; reflexivity.
Qed.

(** The specification's example: A, R and 3600 seconds at time [t0]. *)
Lemma mgr_fetchToken_saves_witness :
  Manager.accessToken mgr_logged_in = Str "A" /\
  Manager.refreshToken mgr_logged_in = Str "R" /\
  Manager.expiry mgr_logged_in = Num (Int (Sample.t0 + 3600000)) /\
  Manager.storage mgr_logged_in !! "expiry" = Some "1700003600000".
Proof.
  destruct (mgr_fetchToken_saves Sample.env_ok mgr_fresh "the-code" 200
              Sample.token_response 3600)
    as (_ & Ha & Hr & _ & He & Hs & _);
    [reflexivity | reflexivity | reflexivity | lia | vm_compute; discriminate
    | vm_compute; discriminate |].
  unfold mgr_logged_in. rewrite Ha, Hr, He, Hs.
  repeat split; vm_compute; reflexivity.
Defined.

(** C3 (as stated) fails.  Answered without a refresh token, [fetchToken]
    persists no refresh_token key; answered with the example A, R, 3600
    it persists three keys, not four; and index.js, answered with the
    same example, stores now + 3600 under expiry, not now + 3,600,000. *)
Lemma exchange_not_persisted_as_claimed :
  Manager.completion (Manager.fetchToken env_no_rotation "the-code") mgr_fresh = Returned tt /\
  Manager.storage (Manager.after (Manager.fetchToken env_no_rotation "the-code") mgr_fresh)
    !! "refresh_token" = None /\
  size (Manager.storage mgr_logged_in) = 3%nat /\
  Browser.storage Sample.js_logged_in !! "expiry" = Some "1700000003600" /\
  NumberToString (Int (Sample.t0 + 3600 * 1000)) = "1700003600000".
Proof. repeat split; vm_compute; reflexivity. Qed.

(** ** Refresh in the rewritten manager *)

(** Without a refresh token [refreshAccessToken] is rejected at once:
    nothing is sent and nothing changes. *)
Lemma mgr_refreshAccessToken_guard (env : Env) (st : Manager.State) :
  truthy (Manager.refreshToken st) = false ->
  Manager.refreshAccessToken env st = (Thrown (Error_ "No refresh token available"), st).
Proof. intros H. rewrite mgr_refreshAccessToken_run, H. reflexivity. Qed.

(** C8 (rewritten manager).  A refresh is meant to keep the refresh token
    held in memory and in storage when the answer brings no new one.
    After a refresh answered without a refresh_token the stored token is
    indeed untouched, but the one in memory has been overwritten with
    null. *)
Theorem mgr_refresh_forgets_refresh_token (env : Env) (st : Manager.State)
    (status : Z) (data : gmap string Value) :
  truthy (Manager.refreshToken st) = true ->
  net env (refresh_request env st) = Response status (Some data) ->
  truthy (prop data "refresh_token") = false ->
  let st' := Manager.after (Manager.refreshAccessToken env) st in
  Manager.completion (Manager.refreshAccessToken env) st = Returned tt /\
  Manager.accessToken st' = prop data "access_token" /\
  Manager.refreshToken st' = Null /\
  Manager.storage st' !! "refresh_token" = Manager.storage st !! "refresh_token".
Proof.
  intros Hr Hnet Hnew st'. subst st'.
  unfold Manager.after, Manager.completion.
  rewrite mgr_refreshAccessToken_run, Hr. cbn zeta. rewrite Hnet. cbn [fst snd].
  unfold saved. rewrite (or_Null_falsy _ Hnew).
  cbn [Manager.accessToken Manager.refreshToken Manager.idToken Manager.expiry
       Manager.storage Manager.with_storage Manager.with_idToken Manager.with_expiry
       Manager.with_refreshToken Manager.with_accessToken Manager.with_sent truthy].
  split; [reflexivity |]. split; [reflexivity |]. split; [reflexivity |].
  destruct (truthy (if truthy (prop data "expires_in") then _ else Null));
    destruct (truthy (or (prop data "id_token") Null));
    simplify_map_eq; reflexivity.
Qed.

(** The logged-in manager holds R in memory and in storage; one refresh
    answered with a new access token only leaves R in storage and null in
    memory. *)
Lemma mgr_refresh_forgets_refresh_token_witness :
  Manager.refreshToken mgr_logged_in = Str "R" /\
  Manager.storage mgr_logged_in !! "refresh_token" = Some "R" /\
  Manager.refreshToken (Manager.after (Manager.refreshAccessToken env_no_rotation) mgr_logged_in)
    = Null /\
  Manager.storage (Manager.after (Manager.refreshAccessToken env_no_rotation) mgr_logged_in)
    !! "refresh_token" = Some "R".
Proof.
  split; [vm_compute; reflexivity |]. split; [vm_compute; reflexivity |].
  destruct (mgr_refresh_forgets_refresh_token env_no_rotation mgr_logged_in 200
              response_without_refresh)
    as (_ & _ & Hm & Hs); [reflexivity | reflexivity | reflexivity |].
  split; [exact Hm |]. rewrite Hs. vm_compute. reflexivity.
Defined.

(** With a new refresh token in the answer both copies are replaced. *)
Lemma mgr_refresh_rotates (env : Env) (st : Manager.State)
    (status : Z) (data : gmap string Value) :
  truthy (Manager.refreshToken st) = true ->
  net env (refresh_request env st) = Response status (Some data) ->
  truthy (prop data "refresh_token") = true ->
  let st' := Manager.after (Manager.refreshAccessToken env) st in
  Manager.refreshToken st' = prop data "refresh_token" /\
  Manager.storage st' !! "refresh_token" = Some (ToString (prop data "refresh_token")).
Proof.
  intros Hr Hnet Hnew st'. subst st'.
  unfold Manager.after. rewrite mgr_refreshAccessToken_run, Hr. cbn zeta. rewrite Hnet.
  cbn [snd]. unfold saved. rewrite (or_Null_truthy _ Hnew), Hnew.
  cbn [Manager.accessToken Manager.refreshToken Manager.idToken Manager.expiry
       Manager.storage Manager.with_storage Manager.with_idToken Manager.with_expiry
       Manager.with_refreshToken Manager.with_accessToken Manager.with_sent].
  split; [reflexivity |].
  destruct (truthy (if truthy (prop data "expires_in") then _ else Null));
    destruct (truthy (or (prop data "id_token") Null));
    simplify_map_eq; reflexivity.
Qed.

(** ** Refresh in the browser classes *)

(** C4 (TypeScript port).  A refresh without a refresh token is meant to
    fail before anything is sent.  [tokenRefresh] has no such guard: with
    an access token and no refresh token it returns normally, having
    handed [fetch] a refresh request whose refresh_token is null. *)
Theorem ts_tokenRefresh_sends_without_refresh_token (env : Env) (st : Browser.State) :
  truthy (Browser.accessToken st) = true ->
  truthy (Browser.refreshToken st) = false ->
  IndexTs.tokenRefresh env st =
    (Returned tt, started (browser_refresh_request st) Browser.AfterRefresh st).
Proof.
  intros Ha _. unfold IndexTs.tokenRefresh, Browser.fetch_then. step.
  rewrite Ha. reflexivity.
Qed.

Lemma ts_tokenRefresh_sends_without_refresh_token_witness :
  Browser.refreshToken Sample.ts_token_only = Null /\
  Browser.sent (Browser.after (IndexTs.tokenRefresh Sample.env_ok) Sample.ts_token_only) =
    [{| url := "http://jae.local:8000/o/token/"; method := POST;
        headers := [("Content-Type", "application/x-www-form-urlencoded");
                    ("Authorization", "Bearer A")];
        body := Some (JSON_stringify [("client_id", Str "cid");
                                      ("grant_type", Str "refresh_token");
                                      ("refresh_token", Null)]) |}].
Proof.
  split; [reflexivity |]. unfold Browser.after.
  rewrite (ts_tokenRefresh_sends_without_refresh_token Sample.env_ok Sample.ts_token_only);
    reflexivity.
Defined.

(** The function index.js declares has the same body, but no call
    [o.refreshToken()] reaches it: the field of the same name hides it,
    the call throws and nothing is sent. *)
Lemma js_prototype_refreshToken_sends_without_refresh_token (env : Env) (st : Browser.State) :
  truthy (Browser.accessToken st) = true ->
  IndexJs.prototype_refreshToken env st =
    (Returned tt, started (browser_refresh_request st) Browser.AfterRefresh st).
Proof.
  intros Ha. unfold IndexJs.prototype_refreshToken, Browser.fetch_then. step.
  rewrite Ha. reflexivity.
Qed.

Lemma js_refreshToken_is_shadowed (st : Browser.State) :
  IndexJs.refreshToken st = (Thrown (TypeError "refreshToken is not a function"), st).
Proof. reflexivity. Qed.

(** Its [.then] keeps the refresh token, in memory and in storage, and
    writes the new access token only: no expiry is updated and a rotated
    refresh token is dropped. *)
Lemma js_onRefresh_run (data : gmap string Value) (st : Browser.State) :
  IndexJs.onRefresh data st =
    (Returned tt,
     Browser.with_storage
       (<["access_token" := ToString (prop data "access_token")]> (Browser.storage st))
       (Browser.with_accessToken (prop data "access_token") st)).
Proof. reflexivity. Qed.

(** ** User info *)

(** C7 (index.js).  The user-info fetch is meant to fail, without
    touching the network, whenever the validity check does not hold.
    [getUserInfo] of index.js only looks at the access token: in a state
    where [isTokenValid] answers false it still hands [fetch] the request. *)
Theorem js_getUserInfo_ignores_validity (st : Browser.State) :
  truthy (Browser.accessToken st) = true ->
  IndexJs.isTokenValid st = (Returned false, st) ->
  IndexJs.getUserInfo st =
    (Returned tt, started (browser_userinfo_request st) Browser.AfterUserInfo st).
Proof.
  intros Ha _. unfold IndexJs.getUserInfo, Browser.fetch_then, Browser.storage_get. step.
  rewrite Ha. cbn. unfold started, browser_userinfo_request.
  destruct (Storage_get "access_token" (Browser.storage st)); reflexivity.
Qed.

Lemma js_getUserInfo_ignores_validity_witness :
  IndexJs.isTokenValid Sample.js_token_only = (Returned false, Sample.js_token_only) /\
  Browser.sent (Browser.after IndexJs.getUserInfo Sample.js_token_only) =
    [{| url := "http://jae.local:8000/o/userinfo/"; method := GET;
        headers := [("Content-Type", "application/json"); ("Authorization", "Bearer A")];
        body := None |}].
Proof.
  split; [reflexivity |]. unfold Browser.after.
  rewrite (js_getUserInfo_ignores_validity Sample.js_token_only); reflexivity.
Defined.

(** The rewritten manager has no validity check at all: [fetchUserInfo]
    sends its request for any value of [expiry]. *)
Lemma mgr_fetchUserInfo_ignores_expiry (env : Env) (st : Manager.State) :
  truthy (Manager.accessToken st) = true ->
  Manager.sent (Manager.after (Manager.fetchUserInfo env) st) =
    Manager.sent st ++ [mgr_userinfo_request env st].
Proof.
  intros Ha. unfold Manager.fetchUserInfo, Manager.generateHmacSignature,
    Manager.await_fetch, Manager.await_json, mgr_userinfo_request.
  step. rewrite Ha. cbn.
  destruct (truthy (Manager.hmacSecret st)) eqn:Hs; cbn; rewrite ?Hs; cbn;
    destruct (net env _) as [|status [data|]]; reflexivity.
Qed.

Lemma mgr_fetchUserInfo_expired_example :
  Manager.expiry mgr_expired = Num (Int 1000) /\
  Manager.sent (Manager.after (Manager.fetchUserInfo Sample.env_ok) mgr_expired) =
    [{| url := "https://api.beyondigital.in/o/userinfo"; method := GET;
        headers := [("Authorization", "Bearer A")]; body := None |}].
Proof. split; vm_compute; reflexivity. Qed.

(** The TypeScript port has the guard: when the validity check
    fails, [getUserInfo] is rejected, nothing is sent, nothing changes. *)
Lemma ts_getUserInfo_guard (env : Env) (st : Browser.State) :
  IndexTs.isTokenValid env st = (Returned false, st) ->
  IndexTs.getUserInfo env st = (Thrown (Error_ "No access token found"), st).
Proof.
  intros H. unfold IndexTs.getUserInfo. unfold mbind at 1. unfold M_bind. rewrite H.
  reflexivity.
Qed.

(** And it resolves to parsed claims only under the validity check. *)
Lemma ts_getUserInfo_claims_only_if_valid (env : Env) (st : Browser.State)
    (data : gmap string Value) :
  Browser.completion (IndexTs.getUserInfo env) st = Returned (IndexTs.Claims data) ->
  IndexTs.isTokenValid env st = (Returned true, st) /\
  truthy (Browser.accessToken st) = true.
Proof.
  destruct (ts_isTokenValid_total env st) as [b Hb].
  unfold Browser.completion, IndexTs.getUserInfo. unfold mbind at 1. unfold M_bind.
  rewrite Hb. destruct b; cbn; [| discriminate].
  step. destruct (truthy (Browser.accessToken st)); cbn; [| discriminate].
  intros _. split; reflexivity.
Qed.

(** ** Logout in the TypeScript port *)

Lemma ts_revokeToken_run (st : Browser.State) :
  IndexTs.revokeToken st =
    if truthy (Browser.accessToken st)
    then (Returned tt, started (browser_revoke_request st) Browser.AfterRevoke st)
    else (Thrown (Error_ "No access token found"), st).
Proof.
  unfold IndexTs.revokeToken, Browser.fetch_then. step.
  destruct (truthy (Browser.accessToken st)); reflexivity.
Qed.

Lemma logout_keys_removed_delete (store : gmap string string) :
  logout_keys_removed
    (delete "expires_at" (delete "expires_in" (delete "refresh_token"
       (delete "access_token" store)))).
Proof. unfold logout_keys_removed. repeat split; simplify_map_eq; reflexivity. Qed.

Lemma bind_run {S A B} (m : M S A) (k : A -> M S B) (s : S) :
  (m ≫= k) s =
    match m s with
    | (Returned a, s') => k a s'
    | (Thrown e, s') => (Thrown e, s')
    end.
Proof. reflexivity. Qed.

Lemma ts_onRevoke_run (data : gmap string Value) (st : Browser.State) :
  IndexTs.onRevoke data st =
    (Returned tt,
     Browser.with_storage
       (delete "refresh_token" (delete "access_token" (Browser.storage st)))
       (Browser.with_refreshToken Null (Browser.with_accessToken Null st))).
Proof. reflexivity. Qed.

Lemma ts_logout_run (st : Browser.State) :
  IndexTs.logout st =
    if truthy (Browser.accessToken st)
    then (Returned tt,
          Browser.with_storage
            (delete "expires_at" (delete "expires_in" (delete "refresh_token"
               (delete "access_token" (Browser.storage st)))))
            (started (browser_revoke_request st) Browser.AfterRevoke st))
    else (Thrown (Error_ "No access token found"), st).
Proof.
  unfold IndexTs.logout. rewrite bind_run, ts_revokeToken_run.
  destruct (truthy (Browser.accessToken st)); reflexivity.
Qed.

(** C5 (amended).  With an access token present, [logout] hands the
    revoke request to [fetch], returns, and has removed access_token,
    refresh_token, expires_in and expires_at at once; the keys stay
    removed however the transport later settles that request (response
    of any status, unparsable body, or failure).  Without an access token
    the error of [revokeToken] leaves [logout] before any key is removed. *)
Theorem ts_logout_removes_keys (env : Env) (st : Browser.State) :
  Browser.inflight st = [] ->
  if truthy (Browser.accessToken st) then
    Browser.completion IndexTs.logout st = Returned tt /\
    Browser.sent (Browser.after IndexTs.logout st) =
      Browser.sent st ++ [browser_revoke_request st] /\
    logout_keys_removed (Browser.storage (Browser.after IndexTs.logout st)) /\
    logout_keys_removed
      (Browser.storage
         (Browser.after (IndexTs.logout;; Browser.run_inflight env (IndexTs.resume env)) st))
  else IndexTs.logout st = (Thrown (Error_ "No access token found"), st).
Proof.
  intros Hidle. unfold Browser.completion, Browser.after.
  rewrite bind_run, ts_logout_run.
  destruct (truthy (Browser.accessToken st)) eqn:Ha; [| reflexivity].
  split; [reflexivity |]. split; [reflexivity |].
  split; [apply logout_keys_removed_delete |].
  unfold Browser.run_inflight, started. rewrite Hidle. step.
  unfold Browser.settle. step.
  destruct (net env (browser_revoke_request st)) as [|status [data|]]; cbn;
    try apply logout_keys_removed_delete.
  rewrite ts_onRevoke_run. unfold logout_keys_removed. cbn.
  repeat split; simplify_map_eq; reflexivity.
Qed.

(** The logged-in port, logging out while the network is down. *)
Lemma ts_logout_removes_keys_witness :
  Browser.inflight Sample.ts_logged_in = [] /\
  truthy (Browser.accessToken Sample.ts_logged_in) = true /\
  logout_keys_removed
    (Browser.storage
       (Browser.after
          (IndexTs.logout;;
           Browser.run_inflight Sample.env_offline (IndexTs.resume Sample.env_offline))
          Sample.ts_logged_in)).
Proof.
  split; [reflexivity |]. split; [reflexivity |].
  pose proof (ts_logout_removes_keys Sample.env_offline Sample.ts_logged_in eq_refl) as H.
  change (truthy (Browser.accessToken Sample.ts_logged_in)) with true in H.
  cbv iota in H. exact (proj2 (proj2 (proj2 H))).
Defined.

(** C5 (as stated) fails in a state without access token: after a
    revocation the port still stores the two expiry keys, and [logout]
    throws there without removing them. *)
Lemma ts_logout_without_token_removes_nothing :
  truthy (Browser.accessToken Sample.ts_revoked) = false /\
  Browser.completion IndexTs.logout Sample.ts_revoked =
    Thrown (Error_ "No access token found") /\
  Browser.storage (Browser.after IndexTs.logout Sample.ts_revoked) !! "expires_at" =
    Some "1700000003600" /\
  ~ logout_keys_removed (Browser.storage (Browser.after IndexTs.logout Sample.ts_revoked)).
Proof.
  split; [reflexivity |]. split; [vm_compute; reflexivity |].
  split; [vm_compute; reflexivity |].
  intros (_ & _ & _ & H). vm_compute in H. discriminate.
Qed.

(** ** Request signing in the rewritten manager *)

Lemma exchange_request_signed (env : Env) (st : Manager.State) (endpoint : string)
    (body : list (string * Value)) :
  signed_as_configured env st (exchange_request env st endpoint body).
Proof.
  exists (JSON_stringify body). split; [reflexivity |].
  unfold exchange_request, exchange_headers. cbn.
  destruct (truthy (Manager.hmacSecret st)); reflexivity.
Qed.

Lemma exchange_sent (env : Env) (st : Manager.State) (x : Exchange) :
  Manager.sent (Manager.after (exchange env x) st) =
    Manager.sent st ++ (if exchange_ready x st then [request_of env st x] else []).
Proof.
  unfold Manager.after. destruct x as [code| |]; cbn [exchange exchange_ready request_of].
  - rewrite mgr_fetchToken_run. cbn zeta.
    destruct (net env _) as [|status [data|]]; reflexivity.
  - rewrite mgr_refreshAccessToken_run.
    destruct (truthy (Manager.refreshToken st)); [| cbn; rewrite app_nil_r; reflexivity].
    cbn zeta. destruct (net env _) as [|status [data|]]; reflexivity.
  - rewrite mgr_revokeToken_run.
    destruct (truthy (Manager.accessToken st)); [| cbn; rewrite app_nil_r; reflexivity].
    cbn zeta. destruct (net env _) as [|status json]; reflexivity.
Qed.

(** C10.  Every request a code exchange, a refresh or a revocation hands
    to [fetch] carries, when an HMAC secret is configured, the hex
    HMAC-SHA256 of exactly the serialized body it sends, under the header
    X-HMAC-Signature, and carries no such header when no secret is
    configured; each operation sends exactly one such request once its
    guard is passed, and none otherwise. *)
Theorem mgr_exchange_requests_signed (env : Env) (st : Manager.State) (x : Exchange) :
  Manager.sent (Manager.after (exchange env x) st) =
    Manager.sent st ++ (if exchange_ready x st then [request_of env st x] else []) /\
  signed_as_configured env st (request_of env st x) /\
  Manager.hmacSecret (Manager.after (exchange env x) st) = Manager.hmacSecret st.
Proof.
  split; [apply exchange_sent |]. split.
  - destruct x; apply exchange_request_signed.
  - unfold Manager.after. destruct x as [code| |]; cbn [exchange].
    + rewrite mgr_fetchToken_run. cbn zeta.
      destruct (net env _) as [|status [data|]]; reflexivity.
    + rewrite mgr_refreshAccessToken_run.
      destruct (truthy (Manager.refreshToken st)); [| reflexivity].
      cbn zeta. destruct (net env _) as [|status [data|]]; reflexivity.
    + rewrite mgr_revokeToken_run.
      destruct (truthy (Manager.accessToken st)); [| reflexivity].
      cbn zeta. destruct (net env _) as [|status json]; reflexivity.
Qed.

(** With the secret "k3y" the revoke request is signed over its body;
    without secret the same request has the content type only. *)
Lemma mgr_revoke_signature_example :
  Manager.sent (Manager.after (Manager.revokeToken Sample.env_ok) mgr_signing) =
    [{| url := "https://api.beyondigital.in/o/revoke-token"; method := POST;
        headers := [("Content-Type", "application/json");
                    ("X-HMAC-Signature",
                     createHmac_sha256_hex Sample.env_ok "k3y"
                       (JSON_stringify [("token", Str "A")]))];
        body := Some (JSON_stringify [("token", Str "A")]) |}] /\
  map headers (Manager.sent (Manager.after (Manager.revokeToken Sample.env_ok) mgr_logged_in)) =
    [[("Content-Type", "application/json")]; [("Content-Type", "application/json")]].
Proof. split; vm_compute; reflexivity. Qed.

(** ** The PKCE verifier *)

Lemma floor_times_lt (k : N) (n : nat) :
  (0 < n)%nat -> (Browser.floor_times (k mod 2 ^ 53) n < n)%nat.
Proof.
  intros Hn. unfold Browser.floor_times.
  assert (H : (k mod 2 ^ 53 * N.of_nat n / 2 ^ 53 < N.of_nat n)%N).
  { apply N.Div0.div_lt_upper_bound.
    apply N.mul_lt_mono_pos_r; [lia |]. apply N.mod_lt. discriminate. }
  lia.
Qed.

Lemma charset_unreserved (i : nat) :
  (i < 66)%nat ->
  exists c, charAt IndexJs.charset i = String c EmptyString /\ unreserved c = true.
Proof.
  intros H. unfold charAt.
  do 66 (destruct i as [|i]; [eexists; split; reflexivity |]). lia.
Qed.

Lemma append_empty_r (s : string) : s +:+ EmptyString = s.
Proof.
  induction s as [|c s IH]; [reflexivity |].
  change (String c (s +:+ EmptyString) = String c s). f_equal. exact IH.
Qed.

Lemma append_snoc (s t : string) (c : ascii) :
  (s +:+ String c EmptyString) +:+ t = s +:+ String c t.
Proof.
  induction s as [|d s IH]; [reflexivity |].
  change (String d ((s +:+ String c EmptyString) +:+ t) = String d (s +:+ String c t)).
  f_equal. exact IH.
Qed.

Lemma Math_random_run (env : Env) (st : Browser.State) :
  Browser.Math_random env st =
    (Returned (random53 env (length (Browser.draws st)) mod 2 ^ 53)%N,
     Browser.with_draws (Browser.draws st ++ [MathRandom]) st).
Proof. reflexivity. Qed.

(** The loop appends one unreserved character per round to what it was
    given, and draws once from [Math.random] per round. *)
Lemma generateRandomString_loop_run (env : Env) (n : nat) :
  forall (random : string) (st : Browser.State),
  exists s,
    IndexJs.generateRandomString_loop env n random st =
      (Returned (random +:+ s),
       Browser.with_draws (Browser.draws st ++ repeat MathRandom n) st) /\
    String.length s = n /\
    Forall (fun c => unreserved c = true) (list_ascii_of_string s).
Proof.
  induction n as [|n IH]; intros random st.
  - exists EmptyString. cbn. rewrite app_nil_r.
    rewrite append_empty_r.
    destruct st; repeat split. constructor.
  - cbn [IndexJs.generateRandomString_loop]. rewrite bind_run, Math_random_run.
    set (r := (random53 env (length (Browser.draws st)) mod 2 ^ 53)%N).
    destruct (charset_unreserved (Browser.floor_times r (String.length IndexJs.charset)))
      as (c & Hc & Hu); [apply floor_times_lt; cbn; lia |].
    rewrite Hc.
    destruct (IH (random +:+ String c EmptyString)
                 (Browser.with_draws (Browser.draws st ++ [MathRandom]) st))
      as (s & Hrun & Hlen & Hall).
    exists (String c s). rewrite Hrun. split; [| split].
    + f_equal.
      * f_equal. apply append_snoc.
      * cbn. rewrite <- app_assoc. reflexivity.
    + cbn. rewrite Hlen. reflexivity.
    + cbn. constructor; assumption.
Qed.

Lemma generateRandomString_run (env : Env) (length : nat) (st : Browser.State) :
  exists s,
    IndexJs.generateRandomString env length st =
      (Returned s, Browser.with_draws (Browser.draws st ++ repeat MathRandom length) st) /\
    String.length s = length /\
    Forall (fun c => unreserved c = true) (list_ascii_of_string s).
Proof.
  destruct (generateRandomString_loop_run env length EmptyString st) as (s & H & Hl & Hu).
  exists s. unfold IndexJs.generateRandomString. rewrite H. auto.
Qed.

(** C9 (amended).  For every requested length, [generateRandomString]
    returns a string of exactly that many characters, each of them a
    letter, a digit or one of -._~ ; it obtains them from [Math.random],
    one call per character, and from no other source. *)
Theorem generateRandomString_length_charset (env : Env) (length : nat) (st : Browser.State) :
  exists s,
    Browser.completion (IndexJs.generateRandomString env length) st = Returned s /\
    String.length s = length /\
    Forall (fun c => unreserved c = true) (list_ascii_of_string s) /\
    Browser.draws (Browser.after (IndexJs.generateRandomString env length) st) =
      Browser.draws st ++ repeat MathRandom length.
Proof.
  destruct (generateRandomString_run env length st) as (s & H & Hl & Hu).
  exists s. unfold Browser.completion, Browser.after. rewrite H. auto.
Qed.

(** The port's generator is the same function. *)
Lemma ts_generateRandomString_same (env : Env) (length : nat) :
  IndexTs.generateRandomString env length = IndexJs.generateRandomString env length.
Proof. reflexivity. Qed.

(** C9 (as stated) fails on the source of randomness: the 64 draws behind
    a verifier all come from [Math.random], which is not a
    cryptographically secure source. *)
Lemma verifier_drawn_from_Math_random :
  Browser.draws (Browser.after (IndexJs.generateRandomString Sample.env_ok 64) Sample.js_fresh)
    = repeat MathRandom 64 /\
  ~ Forall (fun src => cryptographically_secure src = true)
      (Browser.draws
         (Browser.after (IndexJs.generateRandomString Sample.env_ok 64) Sample.js_fresh)).
Proof.
  assert (H : Browser.draws
                (Browser.after (IndexJs.generateRandomString Sample.env_ok 64) Sample.js_fresh)
              = repeat MathRandom 64) by (vm_compute; reflexivity).
  split; [exact H |]. rewrite H. intros Hall. inversion Hall as [|? ? Hsec _]. discriminate.
Qed.

(** ** The authorization URL *)






(** ** What the classes store reads back as the number it was *)

Lemma Z_to_int_nonnil (z : Z) :
  Z.to_int z <> Decimal.Pos Decimal.Nil /\ Z.to_int z <> Decimal.Neg Decimal.Nil.
Proof.
  destruct z as [|p|p]; cbn; split; try discriminate;
    intros [= H]; exact (DecimalPos.Unsigned.to_uint_nonnil p H).
Qed.

Lemma NumberToString_nonempty (z : Z) : is_empty (NumberToString (Int z)) = false.
Proof.
  unfold NumberToString.
  destruct (Z_to_int_nonnil z) as [Hp Hn].
  destruct (Z.to_int z) as [d|d]; cbn.
  - destruct d; reflexivity.
  - reflexivity.
Qed.

Lemma StringToNumber_NumberToString (z : Z) :
  StringToNumber (NumberToString (Int z)) = Int z.
Proof.
  unfold StringToNumber. rewrite NumberToString_nonempty.
  unfold NumberToString. destruct (Z_to_int_nonnil z) as [Hp Hn].
  rewrite (DecimalString.NilZero.isi _ Hp Hn). f_equal. apply DecimalZ.of_to.
Qed.

(** ** The code exchange of the browser classes *)

(** index.js stores the lifetime in seconds added to the time in
    milliseconds. *)
Lemma js_onToken_expiry (env : Env) (data : gmap string Value) (st : Browser.State) (e : Z) :
  prop data "expires_in" = Num (Int e) ->
  Browser.storage (snd (IndexJs.onToken env data st)) !! "expiry" =
    Some (NumberToString (Int (e + now env))) /\
  Browser.storage (snd (IndexJs.onToken env data st)) !! "expires_in" =
    Some (NumberToString (Int e)).
Proof.
  intros He. unfold IndexJs.onToken, Browser.storage_set, Storage_set. step.
  rewrite He. cbn. split; simplify_map_eq; reflexivity.
Qed.

(** In the port a token saved at time [now] with lifetime [e] is valid
    exactly while the clock is before [e + now]. *)
Lemma ts_valid_after_exchange (env env' : Env) (data : gmap string Value)
    (st : Browser.State) (e : Z) :
  prop data "expires_in" = Num (Int e) ->
  Browser.completion (IndexTs.isTokenValid env') (snd (IndexTs.onToken env data st)) =
    Returned (now env' <? e + now env).
Proof.
  intros He. unfold Browser.completion, IndexTs.isTokenValid, IndexTs.onToken,
    Browser.storage_get, Browser.storage_set, Storage_set, Storage_get. step.
  rewrite He. cbn. rewrite lookup_insert_ne by discriminate.
  rewrite lookup_insert_ne by discriminate. rewrite lookup_insert_eq.
  cbn. rewrite NumberToString_nonempty. cbn.
  rewrite StringToNumber_NumberToString. reflexivity.
Qed.

(** ** Revocation in index.js *)

Lemma js_onRevoke_run (data : gmap string Value) (st : Browser.State) :
  IndexJs.onRevoke data st =
    (Returned tt,
     Browser.with_storage
       (delete "refresh_token" (delete "access_token" (Browser.storage st)))
       (Browser.with_refreshToken Null (Browser.with_accessToken Null st))).
Proof. reflexivity. Qed.

Lemma js_revokeToken_run (st : Browser.State) :
  IndexJs.revokeToken st =
    if truthy (Browser.accessToken st)
    then (Returned tt, started (browser_revoke_request st) Browser.AfterRevoke st)
    else (Thrown (Error_ "No access token found"), st).
Proof.
  unfold IndexJs.revokeToken, Browser.fetch_then. step.
  destruct (truthy (Browser.accessToken st)); reflexivity.
Qed.

(** [revokeToken] of index.js clears inside the [.then] of a parsed
    response only: the two token fields and their two keys, never the
    expiry keys; an unparsable body or a failed transport clears nothing. *)
Lemma js_revokeToken_settled (env : Env) (st : Browser.State) :
  truthy (Browser.accessToken st) = true ->
  Browser.inflight st = [] ->
  let st' :=
    Browser.after (IndexJs.revokeToken;; Browser.run_inflight env (IndexJs.resume env)) st in
  match net env (browser_revoke_request st) with
  | Response _ (Some _) =>
      Browser.accessToken st' = Null /\ Browser.refreshToken st' = Null /\
      Browser.storage st' =
        delete "refresh_token" (delete "access_token" (Browser.storage st))
  | _ =>
      Browser.accessToken st' = Browser.accessToken st /\
      Browser.refreshToken st' = Browser.refreshToken st /\
      Browser.storage st' = Browser.storage st
  end.
Proof.
  intros Ha Hidle st'. subst st'. unfold Browser.after.
  rewrite bind_run, js_revokeToken_run, Ha.
  unfold Browser.run_inflight, started. rewrite Hidle. step.
  unfold Browser.settle. step.
  destruct (net env (browser_revoke_request st)) as [|status [data|]].
  - cbn. repeat split; reflexivity.
  - rewrite js_onRevoke_run. cbn. repeat split; reflexivity.
  - cbn. repeat split; reflexivity.
Qed.

(** The browser classes build the same URL. *)
Lemma ts_authorize_url_same (env : Env) :
  IndexTs.authorize_url env = IndexJs.authorize_url env.
Proof.
  unfold IndexTs.authorize_url, IndexJs.authorize_url, IndexTs.sha256, IndexJs.sha256.
  rewrite (ts_generateRandomString_same env 64). reflexivity.
Qed.

(** * Further properties of the rewritten manager *)

Lemma mgr_fetchUserInfo_run (env : Env) (st : Manager.State) :
  Manager.fetchUserInfo env st =
    if truthy (Manager.accessToken st) then
      let st1 := Manager.with_sent (Manager.sent st ++ [mgr_userinfo_request env st]) st in
      match net env (mgr_userinfo_request env st) with
      | NetworkError => (Thrown FetchFailed, st1)
      | Response _ None => (Thrown JsonSyntaxError, st1)
      | Response _ (Some data) => (Returned data, st1)
      end
    else (Thrown (Error_ "No access token available"), st).
Proof.
  unfold Manager.fetchUserInfo, Manager.generateHmacSignature, Manager.await_fetch,
    Manager.await_json, mgr_userinfo_request.
  step. destruct (truthy (Manager.accessToken st)); cbn; [| reflexivity].
  destruct (truthy (Manager.hmacSecret st)) eqn:Hs; cbn; rewrite ?Hs; cbn;
    destruct (net env _) as [|status [data|]]; reflexivity.
Qed.

(** X7.  A code exchange or a refresh whose request fails in transport,
    or is answered with a body that is not JSON, is rejected and leaves
    the four token fields and the storage exactly as they were; only the
    request log has grown. *)
Theorem mgr_failed_token_request_changes_nothing (env : Env) (st : Manager.State)
    (x : Exchange) :
  x <> Revoke ->
  exchange_ready x st = true ->
  (net env (request_of env st x) = NetworkError \/
   exists status, net env (request_of env st x) = Response status None) ->
  (exists e, Manager.completion (exchange env x) st = Thrown e) /\
  same_tokens st (Manager.after (exchange env x) st) /\
  Manager.sent (Manager.after (exchange env x) st) =
    Manager.sent st ++ [request_of env st x].
Proof.
  intros Hx Hready Hfail. unfold Manager.completion, Manager.after.
  destruct x as [code| |]; [| | congruence]; cbn [exchange request_of exchange_ready] in *.
  - rewrite mgr_fetchToken_run. cbn zeta.
    destruct Hfail as [-> | [s ->]]; cbn; unfold same_tokens; cbn; eauto 10.
  - rewrite mgr_refreshAccessToken_run, Hready. cbn zeta.
    destruct Hfail as [-> | [s ->]]; cbn; unfold same_tokens; cbn; eauto 10.
Qed.

Lemma mgr_failed_token_request_changes_nothing_witness :
  same_tokens mgr_logged_in (Manager.after (exchange Sample.env_500 Refresh) mgr_logged_in) /\
  same_tokens mgr_logged_in
    (Manager.after (exchange Sample.env_offline (CodeExchange "c")) mgr_logged_in).
Proof.
  split.
  - apply (mgr_failed_token_request_changes_nothing Sample.env_500 mgr_logged_in Refresh);
      [discriminate | reflexivity | right; exists 500; reflexivity].
  - apply (mgr_failed_token_request_changes_nothing Sample.env_offline mgr_logged_in
             (CodeExchange "c")); [discriminate | reflexivity | left; reflexivity].
Defined.

(** X8.  [fetchToken] never looks at the HTTP status.  An answer of any
    status whose JSON object has no access_token (an OAuth error object,
    say) makes the call return normally, replaces the access token in
    memory by undefined and stores the string "undefined" under
    access_token. *)
Theorem mgr_fetchToken_error_body (env : Env) (st : Manager.State) (code : string)
    (status : Z) (data : gmap string Value) :
  net env (code_request env st code) = Response status (Some data) ->
  data !! "access_token" = None ->
  Manager.completion (Manager.fetchToken env code) st = Returned tt /\
  Manager.accessToken (Manager.after (Manager.fetchToken env code) st) = Undefined /\
  Manager.storage (Manager.after (Manager.fetchToken env code) st) !! "access_token" =
    Some "undefined".
Proof.
  intros Hnet Ha. unfold Manager.completion, Manager.after.
  rewrite mgr_fetchToken_run. cbn zeta. rewrite Hnet. cbn [fst snd].
  unfold saved, prop. rewrite Ha. cbn [default].
  cbn [Manager.accessToken Manager.refreshToken Manager.idToken Manager.expiry
       Manager.storage Manager.with_storage Manager.with_idToken Manager.with_expiry
       Manager.with_refreshToken Manager.with_accessToken Manager.with_sent ToString].
  split; [reflexivity |]. split; [reflexivity |].
  destruct (truthy (or _ Null)); destruct (truthy (if truthy _ then _ else Null));
    destruct (truthy (or _ Null)); simplify_map_eq; reflexivity.
Qed.

Lemma mgr_fetchToken_error_body_witness :
  Manager.accessToken mgr_logged_in = Str "A" /\
  Manager.completion (Manager.fetchToken env_rejected "c") mgr_logged_in = Returned tt /\
  Manager.accessToken (Manager.after (Manager.fetchToken env_rejected "c") mgr_logged_in) =
    Undefined.
Proof.
  split; [vm_compute; reflexivity |].
  destruct (mgr_fetchToken_error_body env_rejected mgr_logged_in "c" 400 error_response)
    as (H1 & H2 & _); [reflexivity | reflexivity |].
  split; assumption.
Defined.

(** X6.  Without a refresh token, [refreshAccessToken] is rejected with
    "No refresh token available" before anything is sent: the state,
    request log included, is unchanged. *)
Theorem mgr_refresh_needs_refresh_token (env : Env) (st : Manager.State) :
  truthy (Manager.refreshToken st) = false ->
  Manager.completion (Manager.refreshAccessToken env) st =
    Thrown (Error_ "No refresh token available") /\
  Manager.after (Manager.refreshAccessToken env) st = st.
Proof.
  intros H. unfold Manager.completion, Manager.after.
  rewrite mgr_refreshAccessToken_run, H. split; reflexivity.
Qed.

Lemma mgr_refresh_needs_refresh_token_witness :
  Manager.completion (Manager.refreshAccessToken Sample.env_ok) mgr_fresh =
    Thrown (Error_ "No refresh token available") /\
  Manager.sent (Manager.after (Manager.refreshAccessToken Sample.env_ok) mgr_fresh) = [].
Proof.
  destruct (mgr_refresh_needs_refresh_token Sample.env_ok mgr_fresh) as [H1 H2];
    [reflexivity |].
  split; [exact H1 |]. rewrite H2. reflexivity.
Defined.

(** X9.  When the answer to a refresh carries a new, non-empty refresh
    token, both copies are replaced: the field in memory holds it and
    its string is stored under refresh_token. *)
Theorem mgr_refresh_replaces_rotated_token (env : Env) (st : Manager.State)
    (status : Z) (data : gmap string Value) (fresh : string) :
  truthy (Manager.refreshToken st) = true ->
  net env (refresh_request env st) = Response status (Some data) ->
  data !! "refresh_token" = Some (Str fresh) -> fresh <> EmptyString ->
  Manager.refreshToken (Manager.after (Manager.refreshAccessToken env) st) = Str fresh /\
  Manager.storage (Manager.after (Manager.refreshAccessToken env) st) !! "refresh_token" =
    Some fresh.
Proof.
  intros Hr Hnet Hd Hne.
  assert (Hp : prop data "refresh_token" = Str fresh) by (unfold prop; rewrite Hd; reflexivity).
  assert (Ht : truthy (prop data "refresh_token") = true)
    by (rewrite Hp; apply truthy_Str; assumption).
  pose proof (mgr_refresh_rotates env st status data Hr Hnet Ht) as H.
  cbv zeta in H. rewrite Hp in H. exact H.
Qed.

Lemma mgr_refresh_replaces_rotated_token_witness :
  Manager.refreshToken mgr_signing = Str "R" /\
  Manager.storage (Manager.after (Manager.refreshAccessToken env_rotating) mgr_signing)
    !! "refresh_token" = Some "R2".
Proof.
  split; [vm_compute; reflexivity |].
  apply (mgr_refresh_replaces_rotated_token env_rotating mgr_signing 200 rotating_response "R2");
    [reflexivity | reflexivity | reflexivity | discriminate].
Defined.

(** X10.  An answer without expires_in (or with 0) resets the expiry in
    memory to null but leaves the stored expiry as it was: the persisted
    mirror keeps the expiry of the previous token. *)
Theorem mgr_saveTokens_keeps_stale_expiry (env : Env) (data : gmap string Value)
    (st : Manager.State) :
  truthy (prop data "expires_in") = false ->
  Manager.expiry (Manager.after (Manager.saveTokens env data) st) = Null /\
  Manager.storage (Manager.after (Manager.saveTokens env data) st) !! "expiry" =
    Manager.storage st !! "expiry".
Proof.
  intros H. unfold Manager.after. rewrite mgr_saveTokens_run. cbn [snd].
  unfold saved. rewrite H.
  cbn [Manager.accessToken Manager.refreshToken Manager.idToken Manager.expiry
       Manager.storage Manager.with_storage Manager.with_idToken Manager.with_expiry
       Manager.with_refreshToken Manager.with_accessToken truthy].
  split; [reflexivity |].
  destruct (truthy (or _ Null)); destruct (truthy (or _ Null)); simplify_map_eq; reflexivity.
Qed.

Lemma mgr_saveTokens_keeps_stale_expiry_witness :
  Manager.expiry (Manager.after (Manager.saveTokens Sample.env_ok error_response) mgr_logged_in)
    = Null /\
  Manager.storage (Manager.after (Manager.saveTokens Sample.env_ok error_response) mgr_logged_in)
    !! "expiry" = Some "1700003600000".
Proof.
  destruct (mgr_saveTokens_keeps_stale_expiry Sample.env_ok error_response mgr_logged_in)
    as [H1 H2]; [reflexivity |].
  split; [exact H1 |]. rewrite H2. vm_compute. reflexivity.
Defined.

(** ** Reading back what was stored *)

Lemma digits_prefix_uint (d : Decimal.uint) :
  Manager.digits_prefix (DecimalString.NilEmpty.string_of_uint d) =
    DecimalString.NilEmpty.string_of_uint d.
Proof. induction d; cbn; [reflexivity | rewrite IHd; reflexivity ..]. Qed.

Lemma parseInt_digit (c : ascii) (r : string) :
  Manager.is_digit c = true ->
  Manager.parseInt (String c r) =
    if is_empty (Manager.digits_prefix (String c r)) then NaN
    else StringToNumber (Manager.digits_prefix (String c r)).
Proof.
  intros H. destruct c as [[] [] [] [] [] [] [] []];
    try (vm_compute in H; discriminate H); reflexivity.
Qed.

Lemma parseInt_uint (d : Decimal.uint) :
  d <> Decimal.Nil ->
  Manager.parseInt (DecimalString.NilEmpty.string_of_uint d) =
    StringToNumber (DecimalString.NilEmpty.string_of_uint d).
Proof.
  intros Hd. destruct d; [congruence | ..];
    (cbn [DecimalString.NilEmpty.string_of_uint];
     rewrite parseInt_digit by reflexivity;
     match goal with
     | |- context [Manager.digits_prefix (String ?c (DecimalString.NilEmpty.string_of_uint ?d))] =>
         change (Manager.digits_prefix (String c (DecimalString.NilEmpty.string_of_uint d)))
           with (String c (Manager.digits_prefix (DecimalString.NilEmpty.string_of_uint d)))
     end;
     rewrite digits_prefix_uint; reflexivity).
Qed.

(** [parseInt] reads a stored non-negative number back. *)
Lemma parseInt_NumberToString (z : Z) :
  0 <= z -> Manager.parseInt (NumberToString (Int z)) = Int z.
Proof.
  intros Hz. rewrite <- (StringToNumber_NumberToString z) at 2.
  unfold NumberToString. destruct z as [|p|p]; [reflexivity | | lia].
  cbn [Z.to_int DecimalString.NilZero.string_of_int].
  pose proof (DecimalPos.Unsigned.to_uint_nonnil p) as Hn.
  unfold DecimalString.NilZero.string_of_uint.
  destruct (Pos.to_uint p) eqn:E; [congruence | ..]; apply parseInt_uint; discriminate.
Qed.

Lemma mgr_loadTokens_run (st : Manager.State) :
  Manager.loadTokens st =
    (Returned tt,
     Manager.with_idToken (Storage_get "id_token" (Manager.storage st))
       (Manager.with_expiry
          (Num (Manager.parseInt
                  (ToString (match Storage_get "expiry" (Manager.storage st) with
                             | Undefined | Null => Str "0"
                             | _ => Storage_get "expiry" (Manager.storage st)
                             end))))
          (Manager.with_refreshToken (Storage_get "refresh_token" (Manager.storage st))
             (Manager.with_accessToken (Storage_get "access_token" (Manager.storage st)) st)))).
Proof. reflexivity. Qed.

Lemma mgr_constructor_tokens (props : Manager.Props) (store : gmap string string)
    (secret : Value) :
  Manager.accessToken (Manager.constructor props store secret) =
    Storage_get "access_token" store /\
  Manager.refreshToken (Manager.constructor props store secret) =
    Storage_get "refresh_token" store /\
  Manager.idToken (Manager.constructor props store secret) = Storage_get "id_token" store /\
  Manager.expiry (Manager.constructor props store secret) =
    Num (Manager.parseInt
           (ToString (match Storage_get "expiry" store with
                      | Undefined | Null => Str "0"
                      | _ => Storage_get "expiry" store
                      end))) /\
  Manager.storage (Manager.constructor props store secret) = store.
Proof.
  unfold Manager.constructor, Manager.after. rewrite mgr_loadTokens_run.
  repeat split; reflexivity.
Qed.

(** X11.  What [saveTokens] persists is what a manager constructed later
    on the same storage holds: for an answer with a string access token,
    string or absent refresh and ID tokens and a lifetime that is a
    positive whole number of seconds with now + lifetime * 1000 a safe
    integer (at most 2^53 - 1), saved into a storage without older
    refresh_token and id_token keys, the reconstructed access token,
    refresh token, ID token and expiry equal the ones in memory after
    the save. *)
Theorem mgr_saved_tokens_rehydrate (env : Env) (st : Manager.State)
    (data : gmap string Value) (a : string) (e : Z)
    (props : Manager.Props) (secret : Value) :
  prop data "access_token" = Str a ->
  string_or_absent (prop data "refresh_token") ->
  string_or_absent (prop data "id_token") ->
  prop data "expires_in" = Num (Int e) -> 0 < e -> 0 <= now env ->
  now env + e * 1000 <= MAX_SAFE_INTEGER ->
  Manager.storage st !! "refresh_token" = None ->
  Manager.storage st !! "id_token" = None ->
  let st' := Manager.after (Manager.saveTokens env data) st in
  let reloaded := Manager.constructor props (Manager.storage st') secret in
  Manager.accessToken reloaded = Manager.accessToken st' /\
  Manager.refreshToken reloaded = Manager.refreshToken st' /\
  Manager.idToken reloaded = Manager.idToken st' /\
  Manager.expiry reloaded = Manager.expiry st'.
Proof.
  intros Ha Hr Hi He Hpos Hnow _ Hsr Hsi st' reloaded. subst st' reloaded.
  destruct (mgr_constructor_tokens props
              (Manager.storage (Manager.after (Manager.saveTokens env data) st)) secret)
    as (-> & -> & -> & -> & _).
  unfold Manager.after. rewrite mgr_saveTokens_run. cbn [snd].
  unfold saved. rewrite Ha, He.
  assert (Ht : truthy (Num (Int e)) = true) by (cbn; apply negb_true_iff, Z.eqb_neq; lia).
  rewrite Ht. cbn [add mul ToNumber number_add number_mul ToString].
  assert (Hx : truthy (Num (Int (now env + e * 1000))) = true)
    by (cbn; apply negb_true_iff, Z.eqb_neq; lia).
  rewrite Hx.
  cbn [Manager.accessToken Manager.refreshToken Manager.idToken Manager.expiry
       Manager.storage Manager.with_storage Manager.with_idToken Manager.with_expiry
       Manager.with_refreshToken Manager.with_accessToken].
  assert (Hexp : forall m : gmap string string,
            Num (Manager.parseInt
                   (ToString
                      match Storage_get "expiry"
                              (<["expiry" := NumberToString (Int (now env + e * 1000))]> m) with
                      | Undefined | Null => Str "0"
                      | _ => Storage_get "expiry"
                               (<["expiry" := NumberToString (Int (now env + e * 1000))]> m)
                      end)) = Num (Int (now env + e * 1000))).
  { intros m. unfold Storage_get. rewrite lookup_insert_eq. cbn [ToString].
    rewrite parseInt_NumberToString by lia. reflexivity. }
  destruct Hr as [Hr | [r Hr]]; destruct Hi as [Hi | [i Hi]]; rewrite Hr, Hi;
    try (destruct r as [|rc rr]); try (destruct i as [|ic ir]);
    cbn [or truthy is_empty negb ToString];
    (split; [unfold Storage_get; simplify_map_eq; reflexivity |]);
    (split; [unfold Storage_get; simplify_map_eq; reflexivity |]);
    (split; [unfold Storage_get; simplify_map_eq; reflexivity |]);
    try apply Hexp.
  all: unfold Storage_get; rewrite lookup_insert_ne by discriminate;
    rewrite lookup_insert_eq; cbn [ToString];
    rewrite parseInt_NumberToString by lia; reflexivity.
Qed.

Lemma mgr_saved_tokens_rehydrate_witness :
  Manager.accessToken
    (Manager.constructor mgr_props (Manager.storage mgr_logged_in) Undefined) = Str "A" /\
  Manager.expiry
    (Manager.constructor mgr_props (Manager.storage mgr_logged_in) Undefined) =
    Num (Int 1700003600000).
Proof.
  destruct (mgr_saved_tokens_rehydrate Sample.env_ok mgr_fresh Sample.token_response "A" 3600
              mgr_props Undefined) as (Ha & _ & _ & He);
    [reflexivity | right; exists "R"; reflexivity | left; reflexivity | reflexivity
    | lia | vm_compute; discriminate | vm_compute; discriminate
    | reflexivity | reflexivity |].
  change (Manager.after (Manager.saveTokens Sample.env_ok Sample.token_response) mgr_fresh)
    with (snd (Manager.saveTokens Sample.env_ok Sample.token_response mgr_fresh)) in Ha, He.
  assert (Hs : Manager.storage mgr_logged_in =
               Manager.storage (snd (Manager.saveTokens Sample.env_ok Sample.token_response
                                       mgr_fresh))) by (vm_compute; reflexivity).
  rewrite Hs, Ha, He. split; vm_compute; reflexivity.
Defined.

(** X12.  A revocation that was answered survives a reload: a manager
    constructed on the storage it leaves holds no access token, no
    refresh token and no ID token, and its expiry is the number 0 (the
    constructor parses a missing expiry as "0"; it is not null). *)
Theorem mgr_revocation_survives_reload (env : Env) (st : Manager.State)
    (props : Manager.Props) (secret : Value) (status : Z)
    (json : option (gmap string Value)) :
  truthy (Manager.accessToken st) = true ->
  net env (revoke_request env st) = Response status json ->
  let reloaded :=
    Manager.constructor props
      (Manager.storage (Manager.after (Manager.revokeToken env) st)) secret in
  Manager.accessToken reloaded = Null /\
  Manager.refreshToken reloaded = Null /\
  Manager.idToken reloaded = Null /\
  Manager.expiry reloaded = Num (Int 0).
Proof.
  intros Ha Hnet reloaded. subst reloaded.
  destruct (mgr_constructor_tokens props
              (Manager.storage (Manager.after (Manager.revokeToken env) st)) secret)
    as (-> & -> & -> & -> & _).
  unfold Manager.after. rewrite mgr_revokeToken_run, Ha. cbn zeta. rewrite Hnet.
  rewrite clearTokens_run. cbn [snd Manager.storage Manager.with_storage].
  unfold Storage_get. simplify_map_eq. repeat split; reflexivity.
Qed.

Lemma mgr_revocation_survives_reload_witness :
  Manager.expiry mgr_logged_in = Num (Int 1700003600000) /\
  Manager.expiry
    (Manager.constructor mgr_props
       (Manager.storage (Manager.after (Manager.revokeToken Sample.env_500) mgr_logged_in))
       Undefined) = Num (Int 0).
Proof.
  split; [vm_compute; reflexivity |].
  apply (mgr_revocation_survives_reload Sample.env_500 mgr_logged_in mgr_props Undefined
           500 None); reflexivity.
Defined.

(** X13.  Once a revocation was answered the session is closed locally:
    [refreshAccessToken], a second [revokeToken] and [fetchUserInfo] are
    each rejected by their guard, whatever the network would say, and
    leave the state, request log included, untouched. *)
Theorem mgr_revoked_session_is_closed (env env' : Env) (st : Manager.State)
    (status : Z) (json : option (gmap string Value)) :
  truthy (Manager.accessToken st) = true ->
  net env (revoke_request env st) = Response status json ->
  let st' := Manager.after (Manager.revokeToken env) st in
  Manager.refreshAccessToken env' st' = (Thrown (Error_ "No refresh token available"), st') /\
  Manager.revokeToken env' st' = (Thrown (Error_ "No access token available"), st') /\
  Manager.fetchUserInfo env' st' = (Thrown (Error_ "No access token available"), st').
Proof.
  intros Ha Hnet st'.
  assert (Hst : Manager.accessToken st' = Null /\ Manager.refreshToken st' = Null).
  { subst st'. unfold Manager.after. rewrite mgr_revokeToken_run, Ha. cbn zeta.
    rewrite Hnet, clearTokens_run. split; reflexivity. }
  destruct Hst as [H1 H2].
  rewrite mgr_refreshAccessToken_run, mgr_revokeToken_run, mgr_fetchUserInfo_run, H1, H2.
  repeat split; reflexivity.
Qed.

Lemma mgr_revoked_session_is_closed_witness :
  Manager.completion (Manager.fetchUserInfo Sample.env_ok)
    (Manager.after (Manager.revokeToken Sample.env_500) mgr_logged_in) =
    Thrown (Error_ "No access token available").
Proof.
  destruct (mgr_revoked_session_is_closed Sample.env_500 Sample.env_ok mgr_logged_in 500 None)
    as (_ & _ & H); [reflexivity | reflexivity |].
  unfold Manager.completion. rewrite H. reflexivity.
Defined.

(** X14.  With an access token, [fetchUserInfo] sends one GET to the
    user-info endpoint with Authorization: Bearer and the token, signed
    (when a secret is set) over the token string itself; it hands the
    parsed body back untouched, is rejected when the transport fails or
    the body is not JSON, and in every case changes nothing but the
    request log. *)
Theorem mgr_fetchUserInfo_passes_claims_through (env : Env) (st : Manager.State) :
  truthy (Manager.accessToken st) = true ->
  let req := mgr_userinfo_request env st in
  Manager.after (Manager.fetchUserInfo env) st =
    Manager.with_sent (Manager.sent st ++ [req]) st /\
  url req = Manager.userInfoUrl st /\ method req = GET /\ body req = None /\
  header "Authorization" (headers req) =
    Some ("Bearer " +:+ ToString (Manager.accessToken st)) /\
  header "X-HMAC-Signature" (headers req) =
    (if truthy (Manager.hmacSecret st)
     then Some (createHmac_sha256_hex env (ToString (Manager.hmacSecret st))
                  (ToString (Manager.accessToken st)))
     else None) /\
  Manager.completion (Manager.fetchUserInfo env) st =
    match net env req with
    | NetworkError => Thrown FetchFailed
    | Response _ None => Thrown JsonSyntaxError
    | Response _ (Some claims) => Returned claims
    end.
Proof.
  intros Ha req. subst req. unfold Manager.after, Manager.completion.
  rewrite mgr_fetchUserInfo_run, Ha. cbn zeta.
  split; [destruct (net env _) as [|s [d|]]; reflexivity |].
  split; [reflexivity |]. split; [reflexivity |]. split; [reflexivity |].
  split; [reflexivity |].
  split; [unfold mgr_userinfo_request; cbn; destruct (truthy (Manager.hmacSecret st));
          reflexivity |].
  destruct (net env _) as [|s [d|]]; reflexivity.
Qed.

Lemma mgr_fetchUserInfo_passes_claims_through_witness :
  Manager.completion (Manager.fetchUserInfo env_rejected) mgr_signing =
    Returned error_response /\
  header "X-HMAC-Signature"
    (headers (mgr_userinfo_request env_rejected mgr_signing)) =
    Some (createHmac_sha256_hex env_rejected "k3y" "A").
Proof.
  destruct (mgr_fetchUserInfo_passes_claims_through env_rejected mgr_signing)
    as (_ & _ & _ & _ & _ & Hs & Hc); [reflexivity |].
  split; [exact Hc | exact Hs].
Defined.

Lemma saved_frame (env : Env) (data : gmap string Value) (st : Manager.State) (k : string) :
  k <> "access_token" -> k <> "refresh_token" -> k <> "expiry" -> k <> "id_token" ->
  Manager.storage (saved env data st) !! k = Manager.storage st !! k.
Proof.
  intros. unfold saved. cbn [Manager.storage Manager.with_storage].
  destruct (truthy (or _ Null)); destruct (truthy (if truthy _ then _ else Null));
    destruct (truthy (or _ Null)); simplify_map_eq; reflexivity.
Qed.

(** X15.  No operation of the manager changes its configuration: client
    id and secret, redirect URI, scope, state, response type, the four
    endpoint URLs and the HMAC secret are after every operation what the
    constructor set. *)
Theorem mgr_configuration_is_immutable (env : Env) (op : Operation) (st : Manager.State) :
  same_config st (effect env op st).
Proof.
  destruct op as [|code| | |]; unfold effect, Manager.after.
  - unfold same_config; repeat split; reflexivity.
  - rewrite mgr_fetchToken_run. cbn zeta.
    destruct (net env _) as [|s [d|]]; cbn [snd];
      unfold same_config; repeat split; reflexivity.
  - rewrite mgr_refreshAccessToken_run.
    destruct (truthy (Manager.refreshToken st));
      [| unfold same_config; repeat split; reflexivity].
    cbn zeta. destruct (net env _) as [|s [d|]]; cbn [snd];
      unfold same_config; repeat split; reflexivity.
  - rewrite mgr_revokeToken_run.
    destruct (truthy (Manager.accessToken st));
      [| unfold same_config; repeat split; reflexivity].
    cbn zeta. destruct (net env _) as [|s j]; rewrite ?clearTokens_run;
      unfold same_config; repeat split; reflexivity.
  - rewrite mgr_fetchUserInfo_run.
    destruct (truthy (Manager.accessToken st));
      [| unfold same_config; repeat split; reflexivity].
    cbn zeta. destruct (net env _) as [|s [d|]]; unfold same_config; repeat split; reflexivity.
Qed.

(** X16.  The only storage keys the manager ever writes or removes are
    access_token, refresh_token, expiry and id_token: every other key
    keeps its value (or its absence) through every operation. *)
Theorem mgr_touches_only_token_keys (env : Env) (op : Operation) (st : Manager.State)
    (k : string) :
  k <> "access_token" -> k <> "refresh_token" -> k <> "expiry" -> k <> "id_token" ->
  Manager.storage (effect env op st) !! k = Manager.storage st !! k.
Proof.
  intros H1 H2 H3 H4.
  destruct op as [|code| | |]; unfold effect, Manager.after.
  - reflexivity.
  - rewrite mgr_fetchToken_run. cbn zeta.
    destruct (net env _) as [|s [d|]]; cbn [snd]; try reflexivity.
    apply (saved_frame env d (Manager.with_sent _ st)); assumption.
  - rewrite mgr_refreshAccessToken_run.
    destruct (truthy (Manager.refreshToken st)); [| reflexivity].
    cbn zeta. destruct (net env _) as [|s [d|]]; cbn [snd]; try reflexivity.
    apply (saved_frame env d (Manager.with_sent _ st)); assumption.
  - rewrite mgr_revokeToken_run.
    destruct (truthy (Manager.accessToken st)); [| reflexivity].
    cbn zeta. destruct (net env _) as [|s j]; [reflexivity |].
    rewrite clearTokens_run. cbn [snd Manager.storage Manager.with_storage Manager.with_sent
      Manager.with_idToken Manager.with_expiry Manager.with_refreshToken
      Manager.with_accessToken].
    simplify_map_eq. reflexivity.
  - rewrite mgr_fetchUserInfo_run.
    destruct (truthy (Manager.accessToken st)); [| reflexivity].
    cbn zeta. destruct (net env _) as [|s [d|]]; reflexivity.
Qed.

Lemma mgr_touches_only_token_keys_witness :
  Manager.storage
    (effect Sample.env_ok OpRevoke
       (Manager.constructor mgr_props {[ "access_token" := "A"; "theme" := "dark" ]} Undefined))
    !! "theme" = Some "dark".
Proof.
  rewrite (mgr_touches_only_token_keys Sample.env_ok OpRevoke); try discriminate.
  vm_compute. reflexivity.
Defined.

(** * Further properties of the browser classes *)

Lemma js_getAccessToken_run (code : Value) (st : Browser.State) :
  IndexJs.getAccessToken code st =
    (Returned tt, started (js_token_request st code) Browser.AfterToken st).
Proof. reflexivity. Qed.

Lemma ts_getAccessTokenFromCode_run (code : Value) (st : Browser.State) :
  IndexTs.getAccessTokenFromCode code st =
    (Returned tt, started (ts_token_request st code) Browser.AfterToken st).
Proof.
  unfold IndexTs.getAccessTokenFromCode, ts_token_request, Browser.fetch_then. step.
  destruct (Browser.withPKCE (Browser.config st)); reflexivity.
Qed.


Lemma ts_onToken_run (env : Env) (data : gmap string Value) (st : Browser.State) :
  IndexTs.onToken env data st =
    (Returned tt,
     Browser.with_storage
       (<["refresh_token" := ToString (prop data "refresh_token")]>
          (<["access_token" := ToString (prop data "access_token")]>
             (<["expires_at" := ToString (add (prop data "expires_in") (Num (Int (now env))))]>
                (<["expires_in" := ToString (prop data "expires_in")]> (Browser.storage st)))))
       (Browser.with_refreshToken (prop data "refresh_token")
          (Browser.with_accessToken (prop data "access_token") st))).
Proof. reflexivity. Qed.

(** One pending chain, settled. *)
Lemma run_inflight_one (env : Env)
    (resume : Browser.Continuation -> gmap string Value -> M Browser.State unit)
    (req : Request) (k : Browser.Continuation) (st : Browser.State) :
  Browser.inflight st = [(req, k)] ->
  Browser.run_inflight env resume st =
    match Browser.settle resume (net env req) k (Browser.with_inflight [] st) with
    | (Returned _, st') => (Returned tt, st')
    | (Thrown e, st') => (Thrown e, st')
    end.
Proof.
  intros H. unfold Browser.run_inflight. step. rewrite H.
  cbn [Browser.settle_all]. rewrite bind_run.
  destruct (Browser.settle resume (net env req) k (Browser.with_inflight [] st)) as [[[]|e] s];
    reflexivity.
Qed.

(** X17.  A code exchange of index.js whose request fails in transport,
    or is answered with a body that is not JSON, is swallowed: nothing
    is thrown, the token fields and the whole storage stay as they were,
    and the only trace is one error on the console. *)
Theorem js_failed_exchange_is_swallowed (env : Env) (st : Browser.State) (code : Value) :
  Browser.inflight st = [] ->
  (net env (js_token_request st code) = NetworkError \/
   exists status, net env (js_token_request st code) = Response status None) ->
  let run := IndexJs.getAccessToken code;; Browser.run_inflight env (IndexJs.resume env) in
  Browser.completion run st = Returned tt /\
  Browser.accessToken (Browser.after run st) = Browser.accessToken st /\
  Browser.refreshToken (Browser.after run st) = Browser.refreshToken st /\
  Browser.storage (Browser.after run st) = Browser.storage st /\
  Browser.inflight (Browser.after run st) = [] /\
  exists e, Browser.console_errors (Browser.after run st) = Browser.console_errors st ++ [e].
Proof.
  intros Hidle Hfail run. subst run. unfold Browser.completion, Browser.after.
  rewrite bind_run, js_getAccessToken_run.
  rewrite (run_inflight_one env (IndexJs.resume env) (js_token_request st code)
             Browser.AfterToken) by (unfold started; cbn; rewrite Hidle; reflexivity).
  unfold Browser.settle. destruct Hfail as [-> | [s ->]]; cbn; eauto 10.
Qed.

Lemma js_failed_exchange_is_swallowed_witness :
  Browser.storage
    (Browser.after (IndexJs.getAccessToken (Str "c");;
                    Browser.run_inflight Sample.env_offline (IndexJs.resume Sample.env_offline))
       Sample.js_token_only) = Browser.storage Sample.js_token_only.
Proof.
  apply (js_failed_exchange_is_swallowed Sample.env_offline Sample.js_token_only (Str "c"));
    [reflexivity | left; reflexivity].
Defined.



(** X19.  [revokeToken] of index.js clears only inside the callback of a
    response whose body parsed as JSON, and then only the two token
    fields and the keys access_token and refresh_token: the stored
    expires_in and expiry stay.  After an unparsable body or a transport
    failure the tokens are still in memory and in storage. *)
Theorem js_revoke_clears_two_keys_when_parsed (env : Env) (st : Browser.State) :
  truthy (Browser.accessToken st) = true ->
  Browser.inflight st = [] ->
  let st' :=
    Browser.after (IndexJs.revokeToken;; Browser.run_inflight env (IndexJs.resume env)) st in
  Browser.storage st' !! "expires_in" = Browser.storage st !! "expires_in" /\
  Browser.storage st' !! "expiry" = Browser.storage st !! "expiry" /\
  match net env (browser_revoke_request st) with
  | Response _ (Some _) =>
      Browser.accessToken st' = Null /\ Browser.refreshToken st' = Null /\
      Browser.storage st' !! "access_token" = None /\
      Browser.storage st' !! "refresh_token" = None
  | _ =>
      Browser.accessToken st' = Browser.accessToken st /\
      Browser.refreshToken st' = Browser.refreshToken st /\
      Browser.storage st' = Browser.storage st
  end.
Proof.
  intros Ha Hidle st'. pose proof (js_revokeToken_settled env st Ha Hidle) as H.
  cbv zeta in H. fold st' in H.
  destruct (net env (browser_revoke_request st)) as [|status [data|]].
  - destruct H as (H1 & H2 & H3). rewrite H3. auto.
  - destruct H as (H1 & H2 & H3). rewrite H3.
    repeat split; try assumption; simplify_map_eq; reflexivity.
  - destruct H as (H1 & H2 & H3). rewrite H3. auto.
Qed.

Lemma js_revoke_clears_two_keys_when_parsed_witness :
  Browser.storage
    (Browser.after (IndexJs.revokeToken;;
                    Browser.run_inflight Sample.env_ok (IndexJs.resume Sample.env_ok))
       Sample.js_logged_in) !! "expiry" = Some "1700000003600".
Proof.
  destruct (js_revoke_clears_two_keys_when_parsed Sample.env_ok Sample.js_logged_in)
    as (_ & H & _); [reflexivity | reflexivity |].
  rewrite H. vm_compute. reflexivity.
Defined.

(** ** Validity and user info in the TypeScript port *)

(** X1.  On a storage whose expires_at is missing, empty, "NaN" or an
    integer in plain decimal digits (what the port itself writes for a
    lifetime that is a whole number or absent), and with the clock a
    safe integer, [isTokenValid] of the port answers and changes nothing;
    it answers true exactly when expires_at holds an integer strictly
    greater than the current time. *)
Theorem ts_validity_check (env : Env) (st : Browser.State) :
  isSafeInteger (now env) = true ->
  written_expiry (Browser.storage st !! "expires_at") = true ->
  exists valid,
    IndexTs.isTokenValid env st = (Returned valid, st) /\
    (valid = true <->
     exists z, Browser.storage st !! "expires_at" = Some (NumberToString (Int z)) /\
               now env < z).
Proof.
  intros _ Hw.
  destruct (ts_isTokenValid_total env st) as [b Hb]. exists b. split; [exact Hb |].
  assert (Hiff : b = true <-> IndexTs.isTokenValid env st = (Returned true, st)).
  { rewrite Hb. split; [intros ->; reflexivity | intros [= ->]; reflexivity]. }
  rewrite Hiff, ts_isTokenValid_true_iff. split.
  - intros (s & z & Hs & Hne & Hn & Hlt). exists z. split; [| exact Hlt].
    rewrite Hs in Hw. cbn [written_expiry] in Hw.
    destruct s as [|c r]; [congruence |]. cbn [is_empty orb] in Hw.
    apply orb_true_iff in Hw. destruct Hw as [Hw | Hw].
    + apply String.eqb_eq in Hw. rewrite Hw in Hn. vm_compute in Hn. discriminate Hn.
    + unfold decimal_integer in Hw. rewrite Hn in Hw.
      apply String.eqb_eq in Hw. rewrite Hs, Hw at 1. reflexivity.
  - intros (z & Hs & Hlt). exists (NumberToString (Int z)), z.
    split; [exact Hs |]. split.
    + intros E. pose proof (NumberToString_nonempty z) as Hn. rewrite E in Hn. discriminate Hn.
    + split; [apply StringToNumber_NumberToString | exact Hlt].
Qed.

(** The port right after the example code exchange: expires_at holds
    1700000003600, 3600 ms after the clock. *)
Lemma ts_validity_check_witness :
  Browser.storage Sample.ts_logged_in !! "expires_at" = Some "1700000003600" /\
  IndexTs.isTokenValid Sample.env_ok Sample.ts_logged_in =
    (Returned true, Sample.ts_logged_in).
Proof.
  split; [vm_compute; reflexivity |].
  destruct (ts_validity_check Sample.env_ok Sample.ts_logged_in) as (valid & Hrun & Hiff);
    [vm_compute; reflexivity | vm_compute; reflexivity |].
  assert (Hv : valid = true).
  { apply Hiff. exists 1700000003600. split; vm_compute; reflexivity. }
  rewrite Hv in Hrun. exact Hrun.
Defined.

(** X2.  In the port, a token saved at time [now] with lifetime
    [expires_in] is valid exactly while the clock is before
    [expires_in + now]: the lifetime, given in seconds, is added to
    milliseconds unconverted, so 3600 buys 3.6 seconds. *)
Theorem ts_validity_window (env later : Env) (data : gmap string Value)
    (st : Browser.State) (e : Z) :
  prop data "expires_in" = Num (Int e) ->
  Browser.completion (IndexTs.isTokenValid later) (snd (IndexTs.onToken env data st)) =
    Returned (now later <? e + now env).
Proof. apply ts_valid_after_exchange. Qed.

Lemma ts_validity_window_witness :
  Browser.completion
    (IndexTs.isTokenValid
       {| now := Sample.t0 + 3600; net := net Sample.env_ok;
          random53 := random53 Sample.env_ok;
          SHA256_base64url := SHA256_base64url Sample.env_ok;
          createHmac_sha256_hex := createHmac_sha256_hex Sample.env_ok;
          popup_blocked := false |})
    (snd (IndexTs.onToken Sample.env_ok Sample.token_response Sample.ts_fresh)) =
    Returned false.
Proof.
  rewrite (ts_validity_window Sample.env_ok _ Sample.token_response Sample.ts_fresh 3600);
    reflexivity.
Defined.

(** X3.  In the port, after a code exchange whose answer has no
    expires_in (an error object, say) the stored expires_at is "NaN" and
    the token is never valid, at any time. *)
Theorem ts_answer_without_lifetime_is_never_valid (env later : Env)
    (data : gmap string Value) (st : Browser.State) :
  data !! "expires_in" = None ->
  Browser.storage (snd (IndexTs.onToken env data st)) !! "expires_at" = Some "NaN" /\
  Browser.completion (IndexTs.isTokenValid later) (snd (IndexTs.onToken env data st)) =
    Returned false.
Proof.
  intros Hd.
  assert (Hp : prop data "expires_in" = Undefined) by (unfold prop; rewrite Hd; reflexivity).
  assert (Hs : Browser.storage (snd (IndexTs.onToken env data st)) !! "expires_at" =
               Some "NaN").
  { rewrite ts_onToken_run. cbn [snd]. rewrite !Hp.
    cbn [Browser.storage Browser.with_storage]. simplify_map_eq. reflexivity. }
  split; [exact Hs |].
  generalize dependent (snd (IndexTs.onToken env data st)). intros s1 Hs.
  unfold Browser.completion, IndexTs.isTokenValid, Browser.storage_get. step.
  unfold Storage_get. rewrite Hs. reflexivity.
Qed.

Lemma ts_answer_without_lifetime_is_never_valid_witness :
  Browser.completion (IndexTs.isTokenValid Sample.env_ok)
    (snd (IndexTs.onToken Sample.env_ok error_response Sample.ts_fresh)) = Returned false.
Proof.
  apply (ts_answer_without_lifetime_is_never_valid Sample.env_ok Sample.env_ok error_response
           Sample.ts_fresh). reflexivity.
Defined.

Lemma ts_getUserInfo_rejected (env : Env) (st : Browser.State) :
  IndexTs.isTokenValid env st = (Returned false, st) \/
  truthy (Browser.accessToken st) = false ->
  IndexTs.getUserInfo env st = (Thrown (Error_ "No access token found"), st).
Proof.
  intros H. destruct (ts_isTokenValid_total env st) as [b Hb].
  unfold IndexTs.getUserInfo. rewrite bind_run, Hb.
  destruct b; [| reflexivity].
  destruct H as [H | H]; [rewrite Hb in H; discriminate |].
  cbn [negb]. rewrite bind_run. cbn [gets]. rewrite H. reflexivity.
Qed.

(** X4.  [getUserInfo] of the port is rejected with "No access token
    found", sending nothing and changing nothing, whenever the validity
    check answers false or no access token is held. *)
Theorem ts_getUserInfo_needs_valid_token (env : Env) (st : Browser.State) :
  IndexTs.isTokenValid env st = (Returned false, st) \/
  truthy (Browser.accessToken st) = false ->
  IndexTs.getUserInfo env st = (Thrown (Error_ "No access token found"), st).
Proof. apply ts_getUserInfo_rejected. Qed.

Lemma ts_getUserInfo_needs_valid_token_witness :
  Browser.sent (Browser.after (IndexTs.getUserInfo Sample.env_ok) Sample.ts_token_only) = [] /\
  Browser.completion (IndexTs.getUserInfo Sample.env_ok) Sample.ts_token_only =
    Thrown (Error_ "No access token found").
Proof.
  unfold Browser.after, Browser.completion.
  rewrite (ts_getUserInfo_needs_valid_token Sample.env_ok Sample.ts_token_only);
    [split; reflexivity | left; reflexivity].
Defined.

Lemma ts_getUserInfo_resolved (env : Env) (st : Browser.State) :
  IndexTs.isTokenValid env st = (Returned true, st) ->
  truthy (Browser.accessToken st) = true ->
  let st1 := Browser.with_sent (Browser.sent st ++ [browser_userinfo_request st]) st in
  IndexTs.getUserInfo env st =
    match net env (browser_userinfo_request st) with
    | Response _ (Some claims) => (Returned (IndexTs.Claims claims), st1)
    | Response _ None =>
        (Returned (IndexTs.ErrorObject JsonSyntaxError),
         Browser.with_console_errors (Browser.console_errors st ++ [JsonSyntaxError]) st1)
    | NetworkError =>
        (Returned (IndexTs.ErrorObject FetchFailed),
         Browser.with_console_errors (Browser.console_errors st ++ [FetchFailed]) st1)
    end.
Proof.
  intros Hv Ha st1. subst st1. unfold IndexTs.getUserInfo. rewrite bind_run, Hv.
  cbn [negb]. rewrite bind_run. cbn [gets]. rewrite Ha. cbn [negb].
  unfold Browser.await_fetch, Browser.await_json, Browser.storage_get, browser_userinfo_request.
  step.
  assert (Hh : ToString (add (Str "Bearer ") (Storage_get "access_token" (Browser.storage st)))
               = "Bearer " +:+ ToString (Storage_get "access_token" (Browser.storage st)))
    by (destruct (Storage_get "access_token" (Browser.storage st)); reflexivity).
  cbn in Hh. rewrite ?Hh.
  destruct (net env _) as [|status [claims|]]; reflexivity.
Qed.

(** X5.  Once both guards are passed, [getUserInfo] of the port always
    resolves: to the parsed body when there is one, and otherwise to an
    object holding the error, which it also logs; a failed transport is
    never reported by rejection.  It sends one GET with the stored
    access token and leaves tokens and storage alone. *)
Theorem ts_getUserInfo_always_resolves (env : Env) (st : Browser.State) :
  IndexTs.isTokenValid env st = (Returned true, st) ->
  truthy (Browser.accessToken st) = true ->
  let st1 := Browser.with_sent (Browser.sent st ++ [browser_userinfo_request st]) st in
  IndexTs.getUserInfo env st =
    match net env (browser_userinfo_request st) with
    | Response _ (Some claims) => (Returned (IndexTs.Claims claims), st1)
    | Response _ None =>
        (Returned (IndexTs.ErrorObject JsonSyntaxError),
         Browser.with_console_errors (Browser.console_errors st ++ [JsonSyntaxError]) st1)
    | NetworkError =>
        (Returned (IndexTs.ErrorObject FetchFailed),
         Browser.with_console_errors (Browser.console_errors st ++ [FetchFailed]) st1)
    end.
Proof. apply ts_getUserInfo_resolved. Qed.

Lemma ts_getUserInfo_always_resolves_witness :
  Browser.completion (IndexTs.getUserInfo Sample.env_offline)
    (snd (IndexTs.onToken Sample.env_ok Sample.token_response Sample.ts_fresh)) =
    Returned (IndexTs.ErrorObject FetchFailed).
Proof.
  unfold Browser.completion.
  rewrite (ts_getUserInfo_always_resolves Sample.env_offline
             (snd (IndexTs.onToken Sample.env_ok Sample.token_response Sample.ts_fresh)));
    reflexivity.
Defined.

(** ** Authorization through a callback *)

Lemma js_authorize_url_state (env : Env) (st : Browser.State) :
  exists url verifier,
    IndexJs.authorize_url env st = (Returned url, url_built verifier st) /\
    String.length verifier = 64%nat /\
    base url = Browser.authorizeURL (Browser.config st) /\
    searchParams url =
      [("client_id", Browser.clientID (Browser.config st));
       ("redirect_uri", Browser.redirectURI (Browser.config st));
       ("response_type", Browser.responseType (Browser.config st))] ++
      (if truthy (Browser.scope (Browser.config st))
       then [("scope", ToString (Browser.scope (Browser.config st)))] else []) ++
      (if Browser.withPKCE (Browser.config st)
       then [("code_challenge", SHA256_base64url env verifier);
             ("code_challenge_method", "S256")]
       else []).
Proof.
  destruct (generateRandomString_run env 64 st) as (v & Hv & Hl & _).
  unfold IndexJs.authorize_url, url_built. rewrite bind_run. cbn [gets].
  destruct (Browser.withPKCE (Browser.config st)) eqn:Hp.
  - rewrite bind_run, Hv. eexists _, v. split; [reflexivity |]. split; [exact Hl |].
    split; destruct (truthy (Browser.scope (Browser.config st))); reflexivity.
  - eexists _, v. split; [reflexivity |]. split; [exact Hl |].
    split; destruct (truthy (Browser.scope (Browser.config st))); reflexivity.
Qed.

Lemma url_built_config (verifier : string) (st : Browser.State) :
  Browser.config (url_built verifier st) = Browser.config st.
Proof. unfold url_built. destruct (Browser.withPKCE (Browser.config st)); reflexivity. Qed.

Lemma url_built_session (verifier : string) (st : Browser.State) :
  same_session st (url_built verifier st).
Proof.
  unfold url_built, same_session.
  destruct (Browser.withPKCE (Browser.config st)); cbn; repeat split;
    simplify_map_eq; reflexivity.
Qed.






Lemma ts_authorize_url_state (env : Env) (st : Browser.State) :
  exists url verifier,
    IndexTs.authorize_url env st = (Returned url, url_built verifier st) /\
    String.length verifier = 64%nat /\
    searchParams url =
      [("client_id", Browser.clientID (Browser.config st));
       ("redirect_uri", Browser.redirectURI (Browser.config st));
       ("response_type", Browser.responseType (Browser.config st))] ++
      (if truthy (Browser.scope (Browser.config st))
       then [("scope", ToString (Browser.scope (Browser.config st)))] else []) ++
      (if Browser.withPKCE (Browser.config st)
       then [("code_challenge", SHA256_base64url env verifier);
             ("code_challenge_method", "S256")]
       else []).
Proof.
  rewrite ts_authorize_url_same.
  destruct (js_authorize_url_state env st) as (url & v & H1 & H2 & _ & H3). eauto.
Qed.




Lemma same_session_trans (a b c : Browser.State) :
  same_session a b -> same_session b c -> same_session a c.
Proof.
  unfold same_session. intros (A1 & A2 & A3 & A4 & A5 & A6 & A7) (B1 & B2 & B3 & B4 & B5 & B6 & B7).
  repeat split; congruence.
Qed.

Lemma same_session_refl (a : Browser.State) : same_session a a.
Proof. unfold same_session. repeat split; reflexivity. Qed.

Lemma ts_authorize_session (env : Env) (st : Browser.State) :
  same_session st (snd (IndexTs.authorize env st)).
Proof.
  destruct (ts_authorize_url_state env st) as (url & v & Hrun & _).
  apply (same_session_trans _ (url_built v st)); [apply url_built_session |].
  unfold IndexTs.authorize. rewrite bind_run, Hrun, bind_run. cbn [gets].
  rewrite url_built_config.
  generalize (url_built v st). intros s.
  destruct (Browser.openWindow (Browser.config st)) as [| |f|].
  - rewrite bind_run. cbn [modify]. destruct (popup_blocked env); (unfold same_session; cbn; repeat split; reflexivity).
  - rewrite bind_run. cbn [modify]. destruct (popup_blocked env); (unfold same_session; cbn; repeat split; reflexivity).
  - unfold try_catch. rewrite bind_run.
    destruct (f (href url)) as [opened|e]; [| (unfold same_session; cbn; repeat split; reflexivity)].
    unfold when. destruct (truthy (code_of opened)); [| (unfold same_session; cbn; repeat split; reflexivity)].
    rewrite ts_getAccessTokenFromCode_run. (unfold same_session; cbn; repeat split; reflexivity).
  - (unfold same_session; cbn; repeat split; reflexivity).
Qed.

Lemma ts_getUserInfo_session (env : Env) (st : Browser.State) :
  same_session st (snd (IndexTs.getUserInfo env st)).
Proof.
  destruct (ts_isTokenValid_total env st) as [b Hb].
  destruct b.
  - destruct (truthy (Browser.accessToken st)) eqn:Ha.
    + rewrite (ts_getUserInfo_resolved env st Hb Ha). cbn zeta.
      destruct (net env _) as [|status [claims|]]; (unfold same_session; cbn; repeat split; reflexivity).
    + rewrite (ts_getUserInfo_rejected env st (or_intror Ha)).
      (unfold same_session; cbn; repeat split; reflexivity).
  - rewrite (ts_getUserInfo_rejected env st (or_introl Hb)).
    (unfold same_session; cbn; repeat split; reflexivity).
Qed.

(** X23.  Whenever the promise of [login] resolves, it resolves with the
    tokens the instance held before the call: the access token and
    refresh token in memory and the expires_at and expires_in in storage
    as they were when [login] began.  The authorization it starts has
    not been exchanged by then, and no user info is part of the result. *)
Theorem ts_login_resolves_with_prior_tokens (env : Env) (st st' : Browser.State)
    (result : IndexTs.LoginResult) :
  IndexTs.login env st = (Returned result, st') ->
  IndexTs.access_token result = Browser.accessToken st /\
  IndexTs.refresh_token result = Browser.refreshToken st /\
  IndexTs.expires_at result = Storage_get "expires_at" (Browser.storage st) /\
  IndexTs.expires_in result = Storage_get "expires_in" (Browser.storage st).
Proof.
  unfold IndexTs.login. rewrite bind_run.
  pose proof (ts_authorize_session env st) as H1.
  destruct (IndexTs.authorize env st) as [[[]|e] s1]; [| discriminate].
  rewrite bind_run. pose proof (ts_getUserInfo_session env s1) as H2.
  cbn [snd] in H1. generalize dependent (snd (IndexTs.getUserInfo env s1)). intros s2 H2.
  unfold Browser.storage_get. step. intros [= <- <-].
  destruct (same_session_trans _ _ _ H1 H2) as (A1 & A2 & _ & _ & A5 & A6 & _).
  cbn. unfold Storage_get. rewrite A1, A2, A5, A6. repeat split; reflexivity.
Qed.

(** The callback has reported a code, and still [login] resolves with no
    access token. *)
Lemma ts_login_resolves_with_prior_tokens_witness :
  exists result st',
    IndexTs.login Sample.env_ok ts_with_opener = (Returned result, st') /\
    IndexTs.access_token result = Null /\
    length (Browser.inflight st') = 1%nat.
Proof.
  destruct (IndexTs.login Sample.env_ok ts_with_opener) as [[r|e] s] eqn:E.
  - exists r, s. split; [reflexivity |].
    destruct (ts_login_resolves_with_prior_tokens Sample.env_ok ts_with_opener s r E)
      as (H & _).
    split; [rewrite H; reflexivity |].
    change s with (snd (Returned r, s)). rewrite <- E. vm_compute. reflexivity.
  - exfalso. assert (H : fst (IndexTs.login Sample.env_ok ts_with_opener) = Thrown e)
      by (rewrite E; reflexivity).
    vm_compute in H. discriminate H.
Defined.

(** ** Polling the popup *)

Lemma js_checkPopupUrl_run (popup : Browser.Popup) (st : Browser.State) :
  IndexJs.checkPopupUrl popup st =
    (match popup with
     | Browser.PopupDetached =>
         Thrown (TypeError "Cannot read properties of null (reading 'location')")
     | _ => Returned tt
     end,
     match popup with
     | Browser.PopupDetached => st
     | Browser.PopupClosed =>
         Browser.with_intervals (Browser.remove_first 500 (Browser.intervals st)) st
     | Browser.PopupElsewhere =>
         Browser.with_console_errors
           (Browser.console_errors st ++ [Error_ "SecurityError"]) st
     | Browser.PopupAt href code =>
         if String.prefix (Browser.redirectURI (Browser.config st)) href then
           let st1 :=
             Browser.with_intervals (Browser.remove_first 500 (Browser.intervals st)) st in
           if truthy code then started (js_token_request st1 code) Browser.AfterToken st1
           else st1
         else st
     end).
Proof.
  unfold IndexJs.checkPopupUrl. rewrite bind_run. unfold try_catch.
  destruct popup as [| | |href code]; [reflexivity | reflexivity | reflexivity |].
  cbn [Browser.read_window_location mret M_ret]. rewrite bind_run. cbn [gets].
  destruct (String.prefix (Browser.redirectURI (Browser.config st)) href); [| reflexivity].
  rewrite bind_run. unfold Browser.clearInterval. cbn [modify]. unfold when.
  destruct (truthy code); [| reflexivity].
  rewrite js_getAccessToken_run. reflexivity.
Qed.

(** X24.  A tick of [checkPopupUrl] can throw from its first statement
    only, the read of [authWindow.window.location] that stands before the
    [try] block: it throws a TypeError exactly when the popup is closed
    and its [window] is null, and such a tick changes nothing, so the
    timer is never cleared.  Every other tick returns.  The polling timer
    is cleared exactly on the ticks that get past that read and find the
    popup closed or at a URL that starts with the redirect URI; a tick
    that finds it on another origin only logs the error: the timer
    stays, nothing is sent, and tokens and storage are untouched. *)
Theorem js_checkPopupUrl_polling (popup : Browser.Popup) (st : Browser.State) :
  Browser.completion (IndexJs.checkPopupUrl popup) st =
    (if window_is_null popup
     then Thrown (TypeError "Cannot read properties of null (reading 'location')")
     else Returned tt) /\
  Browser.intervals (Browser.after (IndexJs.checkPopupUrl popup) st) =
    (if ends_polling st popup then Browser.remove_first 500 (Browser.intervals st)
     else Browser.intervals st) /\
  (window_is_null popup = true -> Browser.after (IndexJs.checkPopupUrl popup) st = st) /\
  (popup = Browser.PopupElsewhere ->
   Browser.after (IndexJs.checkPopupUrl popup) st =
     Browser.with_console_errors (Browser.console_errors st ++ [Error_ "SecurityError"]) st).
Proof.
  unfold Browser.completion, Browser.after. rewrite js_checkPopupUrl_run.
  split; [destruct popup; reflexivity |]. split; [| split].
  - destruct popup as [| | |href code]; cbn [snd ends_polling at_redirect]; try reflexivity.
    destruct (String.prefix _ href); [| reflexivity].
    cbn zeta. destruct (truthy code); reflexivity.
  - destruct popup; cbn [window_is_null]; [reflexivity | discriminate ..].
  - intros ->. reflexivity.
Qed.

(** X25.  A tick of [checkPopupUrl] starts a code exchange exactly when
    the popup is at a URL that starts with the redirect URI and carries
    a non-empty code; it then sends one token request, for that code and
    the verifier held in the instance.  Every other tick sends nothing
    and leaves tokens and storage as they were. *)
Theorem js_checkPopupUrl_exchange (popup : Browser.Popup) (st : Browser.State) :
  Browser.sent (Browser.after (IndexJs.checkPopupUrl popup) st) =
    Browser.sent st ++
    (if at_redirect st popup && truthy (popup_code popup)
     then [js_token_request st (popup_code popup)] else []) /\
  Browser.accessToken (Browser.after (IndexJs.checkPopupUrl popup) st) =
    Browser.accessToken st /\
  Browser.refreshToken (Browser.after (IndexJs.checkPopupUrl popup) st) =
    Browser.refreshToken st /\
  Browser.storage (Browser.after (IndexJs.checkPopupUrl popup) st) = Browser.storage st.
Proof.
  unfold Browser.after. rewrite js_checkPopupUrl_run. cbn [snd].
  destruct popup as [| | |href code]; cbn [at_redirect popup_code andb];
    try (rewrite app_nil_r; repeat split; reflexivity).
  destruct (String.prefix _ href); cbn [andb];
    [| rewrite app_nil_r; repeat split; reflexivity].
  cbn zeta. destruct (truthy code);
    [| cbn; rewrite app_nil_r; repeat split; reflexivity].
  repeat split; reflexivity.
Qed.

(** After [authorize] opened the popup there is one timer; the tick that
    finds the popup at the redirect URI with a code clears it and sends
    the exchange. *)
Lemma js_checkPopupUrl_arrival_example :
  Browser.intervals js_polling = [500] /\
  Browser.intervals
    (Browser.after
       (IndexJs.checkPopupUrl
          (Browser.PopupAt "https://app.example/cb?code=the-code" (Str "the-code")))
       js_polling) = [] /\
  length (Browser.sent
            (Browser.after
               (IndexJs.checkPopupUrl
                  (Browser.PopupAt "https://app.example/cb?code=the-code" (Str "the-code")))
               js_polling)) = 1%nat.
Proof. repeat split; vm_compute; reflexivity. Qed.

(** The port's callback differs in the request it sends only. *)
Lemma ts_checkPopupUrl_run (popup : Browser.Popup) (st : Browser.State) :
  IndexTs.checkPopupUrl popup st =
    (match popup with
     | Browser.PopupDetached =>
         Thrown (TypeError "Cannot read properties of null (reading 'location')")
     | _ => Returned tt
     end,
     match popup with
     | Browser.PopupDetached => st
     | Browser.PopupClosed =>
         Browser.with_intervals (Browser.remove_first 500 (Browser.intervals st)) st
     | Browser.PopupElsewhere =>
         Browser.with_console_errors
           (Browser.console_errors st ++ [Error_ "SecurityError"]) st
     | Browser.PopupAt href code =>
         if String.prefix (Browser.redirectURI (Browser.config st)) href then
           let st1 :=
             Browser.with_intervals (Browser.remove_first 500 (Browser.intervals st)) st in
           if truthy code then started (ts_token_request st1 code) Browser.AfterToken st1
           else st1
         else st
     end).
Proof.
  unfold IndexTs.checkPopupUrl. rewrite bind_run. unfold try_catch.
  destruct popup as [| | |href code]; [reflexivity | reflexivity | reflexivity |].
  cbn [Browser.read_window_location mret M_ret]. rewrite bind_run. cbn [gets].
  destruct (String.prefix (Browser.redirectURI (Browser.config st)) href); [| reflexivity].
  rewrite bind_run. unfold Browser.clearInterval. cbn [modify]. unfold when.
  destruct (truthy code); [| reflexivity].
  rewrite ts_getAccessTokenFromCode_run. reflexivity.
Qed.

(** ** The Authorization header of a revocation *)


